(** * climate-leocap: scenario definitions, density table build and
      output series extraction

    A shallow embedding of the analytic core of the repository:
    - [SEP.py]: the SEP 5 species and interaction definitions and the
      derivation of the high-sustainability variant;
    - [reformat_density.py]: the build of the period/altitude keyed density
      table from the raw arrays;
    - [report_plots.py]: the extraction of per-species series from the
      flattened simulation output, their aggregation, and the density grid.

    Python floats are modelled by exact rationals ([Q]); the only float
    operations the modelled code performs are comparisons against literals,
    [floor], [round], additions and the copying of stored values.  Python
    objects that are mutated through aliases live in an explicit heap.
    Dictionaries are insertion-ordered association lists, as in Python. *)

From Stdlib Require Import List String Ascii Bool Arith ZArith QArith Qround Lia.
From Stdlib Require Import DecimalString.
From Stdlib Require DecimalPos DecimalZ.
From Stdlib Require Import Sorted Lqa.
Import ListNotations.

Close Scope Q_scope.
Open Scope string_scope.

(* ================================================================= *)
(** ** Python containers *)

Module Py.

(** [enumerate(xs)], counting from [start]. *)
Fixpoint enumerate_from {A : Type} (start : nat) (xs : list A) : list (nat * A) :=
  match xs with
  | [] => []
  | x :: xs' => (start, x) :: enumerate_from (S start) xs'
  end.

Definition enumerate {A : Type} (xs : list A) : list (nat * A) :=
  enumerate_from 0 xs.

(** [zip(xs, ys)] stops at the shorter argument. *)
Fixpoint zip {A B : Type} (xs : list A) (ys : list B) : list (A * B) :=
  match xs, ys with
  | x :: xs', y :: ys' => (x, y) :: zip xs' ys'
  | _, _ => []
  end.

(** [name.startswith(pattern)]. *)
Definition startswith (name pattern : string) : bool := String.prefix pattern name.

(** A [dict] with string keys: insertion ordered, one entry per key. *)
Definition dict (V : Type) : Type := list (string * V).

(** [d[k] = v]: an existing key keeps its position and takes the new value,
    a new key goes to the end. *)
Fixpoint dict_set {V : Type} (k : string) (v : V) (d : dict V) : dict V :=
  match d with
  | [] => [(k, v)]
  | (k', v') :: d' =>
      if String.eqb k' k then (k', v) :: d' else (k', v') :: dict_set k v d'
  end.

(** [d.get(k)]; [None] stands for the [KeyError] of [d[k]]. *)
Fixpoint dict_get {V : Type} (k : string) (d : dict V) : option V :=
  match d with
  | [] => None
  | (k', v') :: d' => if String.eqb k' k then Some v' else dict_get k d'
  end.

Definition dict_values {V : Type} (d : dict V) : list V := map snd d.

(** [dict(pairs)]: later pairs overwrite earlier ones with the same key. *)
Definition dict_of {V : Type} (pairs : list (string * V)) : dict V :=
  fold_left (fun d kv => dict_set (fst kv) (snd kv) d) pairs [].

(** [dict.fromkeys(keys)] with a chosen initial value. *)
Definition dict_fromkeys {V : Type} (keys : list string) (v0 : V) : dict V :=
  fold_left (fun d k => dict_set k v0 d) keys [].

(** [str(n)] for an integer. *)
Definition str_of_Z (z : Z) : string := NilZero.string_of_int (Z.to_int z).

(** Left padding of [s] with the character [c] up to [width]. *)
Fixpoint pad_left (c : ascii) (n : nat) (s : string) : string :=
  match n with
  | O => s
  | S n' => String c (pad_left c n' s)
  end.

Definition rjust (c : ascii) (width : nat) (s : string) : string :=
  pad_left c (width - String.length s) s.

(** The outcome of a computation that may raise: the value, or the message
    of the exception. *)
Inductive result (A : Type) : Type :=
| Ok (a : A)
| Raise (msg : string).
Arguments Ok {A} a.
Arguments Raise {A} msg.

(** [list(d)], the keys in insertion order. *)
Definition dict_keys {V : Type} (d : dict V) : list string := map fst d.



End Py.

(* ================================================================= *)
(** ** numpy arrays of floats *)

Module Np.

Definition vector : Type := list Q.
(** A 2-D array: the list of its rows. *)
Definition matrix : Type := list (list Q).

(** [np.zeros((rows, cols))]. *)
Definition zeros (rows cols : nat) : matrix := repeat (repeat 0%Q cols) rows.

(** [y[start:stop, :]]: the rows from [start] up to [stop], every column;
    a slice that runs past the last row is cut there. *)
Definition row_slice (y : matrix) (start stop : nat) : matrix :=
  firstn (stop - start) (skipn start y).

Fixpoint map2 {A B C : Type} (f : A -> B -> C) (xs : list A) (ys : list B) : list C :=
  match xs, ys with
  | x :: xs', y :: ys' => f x y :: map2 f xs' ys'
  | _, _ => []
  end.

(** Broadcasting of one axis of length [length xs] to length [n]. [None] is
    numpy's [ValueError] for shapes that cannot be broadcast. *)
Definition broadcast {A : Type} (n : nat) (xs : list A) : option (list A) :=
  if Nat.eqb (List.length xs) n then Some xs
  else match xs with
       | [x] => Some (repeat x n)
       | _ => None
       end.

Fixpoint sequence {A : Type} (xs : list (option A)) : option (list A) :=
  match xs with
  | [] => Some []
  | None :: _ => None
  | Some x :: xs' =>
      match sequence xs' with
      | Some r => Some (x :: r)
      | None => None
      end
  end.

Definition iadd_row (trow arow : list Q) : option (list Q) :=
  match broadcast (List.length trow) arow with
  | Some a => Some (map2 Qplus trow a)
  | None => None
  end.

(** [total += arr] on 2-D arrays. *)
Definition iadd (total arr : matrix) : option matrix :=
  match broadcast (List.length total) arr with
  | Some a => sequence (map2 iadd_row total a)
  | None => None
  end.

(** [np.round]: to the nearest integer, a tie goes to the even one. *)
Definition round (x : Q) : Z :=
  let f := Qfloor x in
  let d := (x - inject_Z f)%Q in
  match Qcompare d (1 # 2) with
  | Lt => f
  | Gt => (f + 1)%Z
  | Eq => if Z.even f then f else (f + 1)%Z
  end.

(** [np.floor]. *)
Definition floor (x : Q) : Z := Qfloor x.

(** [np.linspace(start, stop, num, dtype=int)] for [num > 1] and
    [stop <> start]: the samples [start + i * step] with
    [step = (stop - start) / (num - 1)], the last one set to [stop], each
    taken to its floor. *)
Definition linspace_int (start stop : Z) (num : nat) : list Z :=
  let step := ((inject_Z stop - inject_Z start) / inject_Z (Z.of_nat (num - 1)))%Q in
  (map (fun i => Qfloor (inject_Z (Z.of_nat i) * step + inject_Z start)%Q)
       (seq 0 (num - 1))
   ++ [stop])%list.

End Np.

(* ================================================================= *)
(** ** report_plots.py: output series extraction *)

Module ReportPlots.
Import Py Np.

(** The part of [scenario_props] the extraction reads. *)
Record SimulationOutput : Type := mkOutput {
  species_names : list string;
  n_shells : nat;
  output_t : list Q;
  output_y : matrix
}.

(** The test of the [prefix == 'debris'] branch. *)
Definition debris_match (name : string) : bool :=
  startswith name "N" || startswith name "N_" || String.eqb name "N".

(** [[f"{prefix}_", prefix] if prefix in ['S', 'B'] else [prefix]]. *)
Definition patterns (prefix : string) : list string :=
  if String.eqb prefix "S" || String.eqb prefix "B"
  then [prefix ++ "_"; prefix]
  else [prefix].

Definition name_matches (prefix name : string) : bool :=
  if String.eqb prefix "debris"
  then debris_match name
  else existsb (startswith name) (patterns prefix).

Definition select_indices (prefix : string) (names : list string) : list nat :=
  map fst (filter (fun p => name_matches prefix (snd p)) (enumerate names)).

(** The loop filling [species_data]. *)
Definition fill_species_data (y : matrix) (n : nat)
    (pairs : list (nat * string)) (d0 : dict matrix) : dict matrix :=
  fold_left
    (fun d p =>
       let start_idx := fst p * n in
       let end_idx := start_idx + n in
       dict_set (snd p) (row_slice y start_idx end_idx) d)
    pairs d0.

Definition extract_species_data (sp : SimulationOutput) (prefix : string)
    : list nat * list string * dict matrix :=
  let species_indices := select_indices prefix (species_names sp) in
  let names := map (fun i => nth i (species_names sp) EmptyString) species_indices in
  let species_data :=
    fill_species_data (output_y sp) (n_shells sp) (zip species_indices names) [] in
  (species_indices, names, species_data).

(** The aggregation loop of [plot_species_heatmap]; [None] when an addition
    raises. *)
Definition sum_species (shells n_times : nat) (species_data : dict matrix)
    : option matrix :=
  fold_left
    (fun acc arr => match acc with
                    | Some total => iadd total arr
                    | None => None
                    end)
    (dict_values species_data) (Some (zeros shells n_times)).

Definition total_objects (sp : SimulationOutput) (species_data : dict matrix)
    : option matrix :=
  sum_species (n_shells sp) (List.length (output_t sp)) species_data.

(** *** The density grid *)

(** The callable stored in [scenario_props.density_model]: its [__name__]
    and the outcome of calling it at a time and the shell altitudes.  The
    remaining arguments of the call are attributes of the same scenario, so
    the outcome of the whole call expression is a function of the time. *)
Record DensityModel : Type := mkDensityModel {
  dm_name : string;
  dm_call : Q -> vector -> result vector
}.

(** The part of [scenario_props] the density grid reads; an absent attribute
    is [None] (or [false]), which is what [hasattr] tests. *)
Record DensityProps : Type := mkDensityProps {
  R0_km : vector;
  timestamps : list Q;
  density_model : option DensityModel;
  has_density_data : bool
}.

Fixpoint set_nth {A : Type} (i : nat) (x : A) (xs : list A) : list A :=
  match xs, i with
  | [], _ => []
  | _ :: xs', O => x :: xs'
  | y :: xs', S i' => y :: set_nth i' x xs'
  end.

(** [m[:, i] = v]: [v] is broadcast to the number of rows. *)
Definition assign_column (i : nat) (v : vector) (m : matrix) : result matrix :=
  match broadcast (List.length m) v with
  | Some col => Ok (map2 (fun row c => set_nth i c row) m col)
  | None => Raise "could not broadcast input array"
  end.

(** [for i, t in enumerate(timestamps): density_values[:, i] = f(t)].  The
    array is updated in place, so the loop gives back the array as it stands
    when it ends or raises, with the message when it raised. *)
Fixpoint fill_columns (f : Q -> result vector) (its : list (nat * Q)) (m : matrix)
    : matrix * option string :=
  match its with
  | [] => (m, None)
  | (i, t) :: rest =>
      match f t with
      | Raise e => (m, Some e)
      | Ok v =>
          match assign_column i v m with
          | Raise e => (m, Some e)
          | Ok m' => fill_columns f rest m'
          end
      end
  end.

(** [np.meshgrid(timestamps, altitudes)]. *)
Definition meshgrid (ts alts : vector) : matrix * matrix :=
  (map (fun _ => ts) alts, map (fun a => map (fun _ => a) ts) alts).

Section DensityGrid.

(** [np.exp] *)
Variable np_exp : Q -> Q.

(** [np.exp(-altitudes / 100)] *)
Definition fallback_profile (altitudes : vector) : vector :=
  map (fun a => np_exp (- a / 100)%Q) altitudes.

(** The printed lines, in order, and the outcome: the three returned arrays
    or the exception that left the function. *)
Definition calculate_time_dependent_density (sp : DensityProps)
    : list string * result (matrix * matrix * matrix) :=
  let altitudes := R0_km sp in
  let ts := timestamps sp in
  let density_values := zeros (List.length altitudes) (List.length ts) in
  let fallback := fun _ : Q => Ok (fallback_profile altitudes) in
  let '(log, filled) :=
    match density_model sp with
    | Some dm =>
        if String.eqb (dm_name dm) "static_exp_dens_func" then
          (["Using Static Density Model"],
           fill_columns (fun t => dm_call dm t altitudes) (enumerate ts) density_values)
        else if has_density_data sp then
          match fill_columns (fun t => dm_call dm t altitudes) (enumerate ts)
                  density_values with
          | (m, None) => (["Using JB2008 Time-Dependent Density Model"], (m, None))
          | (m, Some e) =>
              (["Using JB2008 Time-Dependent Density Model";
                "Error calculating time-dependent density: " ++ e],
               fill_columns fallback (enumerate ts) m)
          end
        else ([], (density_values, None))
    | None =>
        (["Falling back to simplified density calculation"],
         fill_columns fallback (enumerate ts) density_values)
    end in
  match filled with
  | (m, None) =>
      let '(time_mesh, altitude_mesh) := meshgrid ts altitudes in
      (log, Ok (time_mesh, altitude_mesh, m))
  | (_, Some e) => (log, Raise e)
  end.

End DensityGrid.

(** *** Dates and tick positions *)








(** The tick positions of both plot functions:
    [np.linspace(0, len(timestamps)-1, 5, dtype=int)] for more than ten
    timestamps, [range(len(timestamps))] otherwise. *)
Definition tick_indices (n_timestamps : nat) : list Z :=
  if Nat.ltb 10 n_timestamps
  then linspace_int 0 (Z.of_nat n_timestamps - 1) 5
  else map Z.of_nat (seq 0 n_timestamps).

(** [xs[i]] for a Python [int] index: a negative index counts from the end,
    [None] is the [IndexError]. *)
Definition getitem {A : Type} (xs : list A) (i : Z) : option A :=
  if (0 <=? i)%Z then nth_error xs (Z.to_nat i)
  else if (- i <=? Z.of_nat (List.length xs))%Z
       then nth_error xs (Z.to_nat (Z.of_nat (List.length xs) + i))
       else None.

(** [[timestamps[i] for i in tick_indices]], the first argument of
    [plt.xticks]. *)
Definition tick_positions (ts : list Q) : option (list Q) :=
  sequence (map (getitem ts) (tick_indices (List.length ts))).

End ReportPlots.

(* ================================================================= *)
(** ** reformat_density.py: the build of the density table *)

Module ReformatDensity.
Import Py.

Section Build.

(** The stored density values; the build only copies them. *)
Variable V : Type.

(** The unpickled list [data]: entries 0 to 9 are the density arrays of the
    pathways and of the baseline, entry 10 the altitudes, entry 11 the
    decimal years. *)
Record RawData : Type := mkRawData {
  dens : list (list (list V));
  alt_rs : list Z;
  year_rs : list Q
}.

(** The [match ssp] statement: the index of the array to take, [None] for
    the default case, which prints a message and exits. *)
Definition ssp_index (ssp : Z) : option nat :=
  match ssp with
  | 0%Z => Some 9
  | 1%Z => Some 1
  | 2%Z => Some 2
  | 3%Z => Some 3
  | 4%Z => Some 6
  | 5%Z => Some 8
  | _ => None
  end.

(** The format [4.0f]: no decimals, right aligned in four columns. *)
Definition format_4_0f (z : Z) : string := rjust " "%char 4 (str_of_Z z).

(** The format [02.0f]: no decimals, zero padded to two columns after the
    sign. *)
Definition format_02_0f (z : Z) : string :=
  if (z <? 0)%Z
  then String "-"%char (rjust "0"%char 1 (str_of_Z (- z)))
  else rjust "0"%char 2 (str_of_Z z).

(** The computation of [year] and [mo] in the loop over [data[11]]. *)
Definition year_of (frac : Q) : Z := Np.floor frac.

Definition month_of (frac : Q) : Z :=
  (Np.round ((frac - inject_Z (year_of frac)) * 12)%Q + 1)%Z.

(** The label stored in [str_years], an array of strings of at most ten
    characters. *)
Definition period_label (frac : Q) : string :=
  substring 0 10 (format_4_0f (year_of frac) ++ "-" ++ format_02_0f (month_of frac)).

Definition str_years (d : RawData) : list string := map period_label (year_rs d).

(** [data[10].astype(str)] *)
Definition str_alts (d : RawData) : list string := map str_of_Z (alt_rs d).

(** The table: [dict.fromkeys] leaves [None] under a key until the loop
    stores the inner dictionary. *)
Definition table : Type := dict (option (dict V)).

(** The loop over [enumerate(str_years)] that stores the inner dictionaries;
    [sspdata[i, :]] raises when the array has no row [i]. *)
Fixpoint fill_table (alts : list string) (sspdata : list (list V))
    (rows : list (nat * string)) (tojson : table) : result table :=
  match rows with
  | [] => Ok tojson
  | (i, str_year) :: rest =>
      match nth_error sspdata i with
      | None => Raise "index is out of bounds"
      | Some row =>
          fill_table alts sspdata rest
            (dict_set str_year (Some (dict_of (zip alts row))) tojson)
      end
  end.

(** [main(ssp, path)] up to the dictionary that is dumped to [path]. *)
Definition main (d : RawData) (ssp : Z) : result table :=
  match ssp_index ssp with
  | None => Raise "Invalid SSP. Choose 1-5."
  | Some k =>
      match nth_error (dens d) k with
      | None => Raise "list index out of range"
      | Some sspdata =>
          let tojson := dict_fromkeys (str_years d) None in
          fill_table (str_alts d) sspdata (enumerate (str_years d)) tojson
      end
  end.

(** [tojson[period][altitude]] *)
Definition table_get (t : table) (period altitude : string) : option V :=
  match dict_get period t with
  | Some (Some inner) => dict_get altitude inner
  | _ => None
  end.

End Build.

Arguments mkRawData {V} _ _ _.
Arguments dens {V} _.
Arguments alt_rs {V} _.
Arguments year_rs {V} _.
Arguments str_years {V} _.
Arguments str_alts {V} _.
Arguments fill_table {V} _ _ _ _.
Arguments main {V} _ _.
Arguments table_get {V} _ _ _.

End ReformatDensity.

(* ================================================================= *)
(** ** density_vis.py: reading a column of the table *)

Module DensityVis.
Import Py.

Section Series.
Variable V : Type.

(** [base[key][alt]] for one key of the loaded table.  The file written by
    [json.dump] and read by [json.load] gives the dictionary back: the keys
    are strings and a float is written in its shortest exact form.  A
    missing key is a [KeyError], an entry left at [None] a [TypeError]. *)
Definition lookup (base : ReformatDensity.table V) (key alt : string) : result V :=
  match dict_get key base with
  | Some (Some inner) =>
      match dict_get alt inner with
      | Some v => Ok v
      | None => Raise "KeyError"
      end
  | Some None => Raise "TypeError"
  | None => Raise "KeyError"
  end.

(** [[base[key][alt] for key in keys]] *)
Fixpoint lookup_all (base : ReformatDensity.table V) (alt : string)
    (keys : list string) : result (list V) :=
  match keys with
  | [] => Ok []
  | key :: rest =>
      match lookup base key alt with
      | Raise e => Raise e
      | Ok v =>
          match lookup_all base alt rest with
          | Raise e => Raise e
          | Ok vs => Ok (v :: vs)
          end
      end
  end.

(** [[base[key][alt] for key in base]], the series that [main] plots. *)
Definition series (base : ReformatDensity.table V) (alt : string) : result (list V) :=
  lookup_all base alt (dict_keys base).

End Series.

Arguments lookup {V} _ _ _.
Arguments lookup_all {V} _ _ _.
Arguments series {V} _ _.

End DensityVis.

(* ================================================================= *)
(** ** SEP.py: species, interactions and the high-sustainability variant *)

Module SEP.
Import Py.
Local Open Scope Q_scope.

(** Python's [x < y] and [x <= y] on numbers. *)
Definition ltb (x y : Q) : bool := negb (Qle_bool y x).
Definition leb (x y : Q) : bool := Qle_bool x y.

Definition gtb (x y : Q) : bool := ltb y x.
Definition geb (x y : Q) : bool := leb y x.

Infix "<?" := ltb (at level 70, no associativity) : Q_scope.
Infix "<=?" := leb (at level 70, no associativity) : Q_scope.
Infix ">?" := gtb (at level 70, no associativity) : Q_scope.
Infix ">=?" := geb (at level 70, no associativity) : Q_scope.

(** The keyword arguments of [Species(...)]; a keyword that is not passed is
    [None]. *)
Record Species : Type := mkSpecies {
  name : string;
  description : string;
  is_man_made : bool;
  is_active : bool;
  is_trackable : bool;
  can_maneuver : bool;
  launch_rate_fn : Q -> Q;
  lifetime_fn : Q -> Q;
  mass_fn : Q -> Q;
  area_fn : Q -> Q;
  initial_number_fn : Q -> Q;
  pmd_success_rate : Q;
  pmd_time : Q;
  collision_avoidance : bool;
  post_failure_activity_time : option Q;
  explosion_probability : option Q
}.

Definition commercial_constellation : Species := {|
  name := "commercial_constellation_sats";
  description := "Commercial constellation satellites (e.g., Starlink, Kuiper)";
  is_man_made := true;
  is_active := true;
  is_trackable := true;
  can_maneuver := true;
  launch_rate_fn := fun t => if t <? 5 then 3000 else if t <? 10 then 2000 else 1500;
  lifetime_fn := fun alt => if alt <? 600 then 7 else 8;
  mass_fn := fun alt => if alt <? 600 then 300 else 500;
  area_fn := fun alt => if alt <? 600 then 4 else 6;
  initial_number_fn := fun alt => if (500 <=? alt) && (alt <? 600) then 6000 else 0;
  pmd_success_rate := 0.98;
  pmd_time := 5;
  collision_avoidance := true;
  post_failure_activity_time := Some 0.5;
  explosion_probability := None
|}.

Definition commercial_other : Species := {|
  name := "commercial_other_sats";
  description := "Non-constellation commercial satellites";
  is_man_made := true;
  is_active := true;
  is_trackable := true;
  can_maneuver := true;
  launch_rate_fn := fun t => if t <? 5 then 50 else if t <? 10 then 70 else 90;
  lifetime_fn := fun alt => if alt <? 800 then 8 else if alt <? 1200 then 10 else 12;
  mass_fn := fun alt => if alt <? 800 then 1000 else 2000;
  area_fn := fun alt => if alt <? 800 then 15 else 25;
  initial_number_fn := fun alt =>
    if (600 <=? alt) && (alt <? 800) then 50
    else if (800 <=? alt) && (alt <? 1200) then 30 else 0;
  pmd_success_rate := 0.95;
  pmd_time := 5;
  collision_avoidance := true;
  post_failure_activity_time := Some 1.0;
  explosion_probability := None
|}.

Definition gov_civil : Species := {|
  name := "gov_civil_sats";
  description := "Government civil satellites (meteorological, Earth observation, etc.)";
  is_man_made := true;
  is_active := true;
  is_trackable := true;
  can_maneuver := true;
  launch_rate_fn := fun t => 10;
  lifetime_fn := fun alt => if alt <? 700 then 7 else 10;
  mass_fn := fun alt => if alt <? 700 then 2000 else 3500;
  area_fn := fun alt => if alt <? 700 then 25 else 40;
  initial_number_fn := fun alt =>
    if (600 <=? alt) && (alt <? 700) then 5
    else if (700 <=? alt) && (alt <? 1000) then 15 else 0;
  pmd_success_rate := 0.90;
  pmd_time := 5;
  collision_avoidance := true;
  post_failure_activity_time := Some 1.0;
  explosion_probability := None
|}.

Definition military : Species := {|
  name := "military_sats";
  description := "Military satellites";
  is_man_made := true;
  is_active := true;
  is_trackable := true;
  can_maneuver := true;
  launch_rate_fn := fun t => 8;
  lifetime_fn := fun alt => if alt <? 1000 then 10 else 15;
  mass_fn := fun alt => if alt <? 1000 then 2500 else 4000;
  area_fn := fun alt => if alt <? 1000 then 30 else 45;
  initial_number_fn := fun alt => if (800 <=? alt) && (alt <? 1200) then 10 else 0;
  pmd_success_rate := 0.90;
  pmd_time := 5;
  collision_avoidance := true;
  post_failure_activity_time := Some 1.5;
  explosion_probability := None
|}.

Definition small_satellites : Species := {|
  name := "small_sats";
  description := "Small satellites (CubeSats, etc.) for commercial and academic use";
  is_man_made := true;
  is_active := true;
  is_trackable := true;
  can_maneuver := false;
  launch_rate_fn := fun t => if t <? 5 then 200 else if t <? 10 then 150 else 100;
  lifetime_fn := fun alt => if alt <? 500 then 3 else if alt <? 700 then 5 else 7;
  mass_fn := fun alt => 10;
  area_fn := fun alt => 0.1;
  initial_number_fn := fun alt =>
    if (400 <=? alt) && (alt <? 600) then 300
    else if (600 <=? alt) && (alt <? 800) then 100 else 0;
  pmd_success_rate := 0.98;
  pmd_time := 5;
  collision_avoidance := false;
  post_failure_activity_time := Some 0.1;
  explosion_probability := None
|}.

Definition rocket_bodies_commercial : Species := {|
  name := "rocket_bodies_commercial";
  description := "Rocket bodies and upper stages from commercial launches";
  is_man_made := true;
  is_active := false;
  is_trackable := true;
  can_maneuver := false;
  launch_rate_fn := fun t => if t <? 5 then 80 else if t <? 10 then 70 else 60;
  lifetime_fn := fun alt => if alt <? 400 then 2 else if alt <? 600 then 10 else 20;
  mass_fn := fun alt => if alt <? 500 then 2000 else 3000;
  area_fn := fun alt => 30;
  initial_number_fn := fun alt =>
    if (200 <=? alt) && (alt <? 300) then 30
    else if (300 <=? alt) && (alt <? 500) then 20
    else if (500 <=? alt) && (alt <? 700) then 10 else 0;
  pmd_success_rate := 0.90;
  pmd_time := 5;
  collision_avoidance := false;
  post_failure_activity_time := None;
  explosion_probability := Some 0.015
|}.

Definition rocket_bodies_gov : Species := {|
  name := "rocket_bodies_gov";
  description := "Rocket bodies and upper stages from government launches";
  is_man_made := true;
  is_active := false;
  is_trackable := true;
  can_maneuver := false;
  launch_rate_fn := fun t => 15;
  lifetime_fn := fun alt => if alt <? 400 then 2 else if alt <? 600 then 10 else 25;
  mass_fn := fun alt => 3000;
  area_fn := fun alt => 35;
  initial_number_fn := fun alt =>
    if (300 <=? alt) && (alt <? 500) then 10
    else if (500 <=? alt) && (alt <? 700) then 5 else 0;
  pmd_success_rate := 0.90;
  pmd_time := 5;
  collision_avoidance := false;
  post_failure_activity_time := None;
  explosion_probability := Some 0.015
|}.

Definition inactive_commercial : Species := {|
  name := "inactive_commercial_sats";
  description := "Failed or derelict commercial satellites";
  is_man_made := true;
  is_active := false;
  is_trackable := true;
  can_maneuver := false;
  launch_rate_fn := fun t => 0;
  lifetime_fn := fun alt => if alt <? 500 then 10 else if alt <? 800 then 25 else 100;
  mass_fn := fun alt => if alt <? 600 then 300 else if alt <? 800 then 1000 else 2000;
  area_fn := fun alt => if alt <? 600 then 4 else if alt <? 800 then 15 else 25;
  initial_number_fn := fun alt =>
    if (500 <=? alt) && (alt <? 800) then 100
    else if (800 <=? alt) && (alt <? 1200) then 50 else 0;
  pmd_success_rate := 0.0;
  pmd_time := 25;
  collision_avoidance := false;
  post_failure_activity_time := None;
  explosion_probability := Some 0.002
|}.

Definition inactive_government : Species := {|
  name := "inactive_government_sats";
  description := "Failed or derelict government satellites";
  is_man_made := true;
  is_active := false;
  is_trackable := true;
  can_maneuver := false;
  launch_rate_fn := fun t => 0;
  lifetime_fn := fun alt => if alt <? 700 then 15 else if alt <? 1000 then 30 else 100;
  mass_fn := fun alt => if alt <? 1000 then 2000 else 3500;
  area_fn := fun alt => if alt <? 1000 then 25 else 40;
  initial_number_fn := fun alt =>
    if (700 <=? alt) && (alt <? 1000) then 20
    else if (1000 <=? alt) && (alt <? 1500) then 10 else 0;
  pmd_success_rate := 0.0;
  pmd_time := 25;
  collision_avoidance := false;
  post_failure_activity_time := None;
  explosion_probability := Some 0.002
|}.

Definition large_debris : Species := {|
  name := "large_debris";
  description := "Large debris objects (>10 cm)";
  is_man_made := true;
  is_active := false;
  is_trackable := true;
  can_maneuver := false;
  launch_rate_fn := fun t => 0;
  lifetime_fn := fun alt => if alt <? 500 then 5 else if alt <? 800 then 25 else 100;
  mass_fn := fun alt => 5;
  area_fn := fun alt => 0.1;
  initial_number_fn := fun alt =>
    if (500 <=? alt) && (alt <? 800) then 3000
    else if (800 <=? alt) && (alt <? 1200) then 2000
    else if (1200 <=? alt) && (alt <? 1500) then 1000 else 0;
  pmd_success_rate := 0.0;
  pmd_time := 25;
  collision_avoidance := false;
  post_failure_activity_time := None;
  explosion_probability := None
|}.

Definition medium_debris : Species := {|
  name := "medium_debris";
  description := "Medium debris objects (1-10 cm)";
  is_man_made := true;
  is_active := false;
  is_trackable := false;
  can_maneuver := false;
  launch_rate_fn := fun t => 0;
  lifetime_fn := fun alt => if alt <? 500 then 3 else if alt <? 800 then 15 else 50;
  mass_fn := fun alt => 0.5;
  area_fn := fun alt => 0.01;
  initial_number_fn := fun alt =>
    if (500 <=? alt) && (alt <? 800) then 20000
    else if (800 <=? alt) && (alt <? 1200) then 15000
    else if (1200 <=? alt) && (alt <? 1500) then 5000 else 0;
  pmd_success_rate := 0.0;
  pmd_time := 25;
  collision_avoidance := false;
  post_failure_activity_time := None;
  explosion_probability := None
|}.

Definition small_debris : Species := {|
  name := "small_debris";
  description := "Small debris objects (1mm-1cm)";
  is_man_made := true;
  is_active := false;
  is_trackable := false;
  can_maneuver := false;
  launch_rate_fn := fun t => 0;
  lifetime_fn := fun alt => if alt <? 500 then 1 else if alt <? 800 then 5 else 25;
  mass_fn := fun alt => 0.001;
  area_fn := fun alt => 0.0001;
  initial_number_fn := fun alt =>
    if (500 <=? alt) && (alt <? 800) then 500000
    else if (800 <=? alt) && (alt <? 1200) then 300000
    else if (1200 <=? alt) && (alt <? 1500) then 100000 else 0;
  pmd_success_rate := 0.0;
  pmd_time := 25;
  collision_avoidance := false;
  post_failure_activity_time := None;
  explosion_probability := None
|}.

(** The keyword arguments of [Interaction(...)]. *)
Record Interaction : Type := mkInteraction {
  species_a : string;
  species_b : option string;
  interaction_type : string;
  probability_fn : Q -> Q -> Q;
  products : dict (Q -> Q)
}.

Definition interactions : list Interaction := [
  {| species_a := "commercial_constellation_sats";
     species_b := Some "commercial_constellation_sats";
     interaction_type := "collision";
     probability_fn := fun t alt => if alt >? 400 then 1e-5 else 0.0;
     products := [
       ("large_debris", fun alt => if alt <? 600 then 100 else 150);
       ("medium_debris", fun alt => if alt <? 600 then 500 else 800);
       ("small_debris", fun alt => if alt <? 600 then 10000 else 15000) ] |};
  {| species_a := "commercial_constellation_sats";
     species_b := Some "commercial_other_sats";
     interaction_type := "collision";
     probability_fn := fun t alt => if alt >? 400 then 5e-5 else 0.0;
     products := [
       ("large_debris", fun alt => 200);
       ("medium_debris", fun alt => 1000);
       ("small_debris", fun alt => 20000) ] |};
  {| species_a := "commercial_constellation_sats";
     species_b := Some "large_debris";
     interaction_type := "collision";
     probability_fn := fun t alt => if alt >? 400 then 1e-4 else 0.0;
     products := [
       ("large_debris", fun alt => 50);
       ("medium_debris", fun alt => 300);
       ("small_debris", fun alt => 5000);
       ("inactive_commercial_sats", fun alt => 1) ] |};
  {| species_a := "rocket_bodies_commercial";
     species_b := None;
     interaction_type := "explosion";
     probability_fn := fun t alt => if alt >? 300 then 0.015 else 0.0;
     products := [
       ("large_debris", fun alt => 50);
       ("medium_debris", fun alt => 200);
       ("small_debris", fun alt => 5000) ] |};
  {| species_a := "commercial_constellation_sats";
     species_b := None;
     interaction_type := "failure";
     probability_fn := fun t alt => 0.02;
     products := [ ("inactive_commercial_sats", fun alt => 1) ] |};
  {| species_a := "commercial_constellation_sats";
     species_b := None;
     interaction_type := "eol_success";
     probability_fn := fun t alt => 1 / 7 * 0.98;
     products := [] |};
  {| species_a := "commercial_constellation_sats";
     species_b := None;
     interaction_type := "eol_failure";
     probability_fn := fun t alt => 1 / 7 * 0.02;
     products := [ ("inactive_commercial_sats", fun alt => 1) ] |};
  {| species_a := "inactive_commercial_sats";
     species_b := None;
     interaction_type := "removal";
     probability_fn := fun t alt => if t >=? 5 then 10 / 2000 else 0;
     products := [] |}
]%list.

(** *** The module's objects

    The [Species] objects are created once and then reached through the
    dictionaries, which hold references: an object is an address in the
    heap, a dictionary maps a name to an address. *)

Definition addr : Type := nat.
Definition heap : Type := list Species.

(** [obj.pmd_success_rate = v] and [obj.explosion_probability = v]. *)
Definition with_pmd_success_rate (v : Q) (s : Species) : Species := {|
  name := name s;
  description := description s;
  is_man_made := is_man_made s;
  is_active := is_active s;
  is_trackable := is_trackable s;
  can_maneuver := can_maneuver s;
  launch_rate_fn := launch_rate_fn s;
  lifetime_fn := lifetime_fn s;
  mass_fn := mass_fn s;
  area_fn := area_fn s;
  initial_number_fn := initial_number_fn s;
  pmd_success_rate := v;
  pmd_time := pmd_time s;
  collision_avoidance := collision_avoidance s;
  post_failure_activity_time := post_failure_activity_time s;
  explosion_probability := explosion_probability s
|}.

Definition with_explosion_probability (v : Q) (s : Species) : Species := {|
  name := name s;
  description := description s;
  is_man_made := is_man_made s;
  is_active := is_active s;
  is_trackable := is_trackable s;
  can_maneuver := can_maneuver s;
  launch_rate_fn := launch_rate_fn s;
  lifetime_fn := lifetime_fn s;
  mass_fn := mass_fn s;
  area_fn := area_fn s;
  initial_number_fn := initial_number_fn s;
  pmd_success_rate := pmd_success_rate s;
  pmd_time := pmd_time s;
  collision_avoidance := collision_avoidance s;
  post_failure_activity_time := post_failure_activity_time s;
  explosion_probability := Some v
|}.

Fixpoint update (a : addr) (f : Species -> Species) (h : heap) : heap :=
  match h, a with
  | [], _ => []
  | s :: h', O => f s :: h'
  | s :: h', S a' => s :: update a' f h'
  end%list.

(** The module's global variables. *)
Record Globals : Type := mkGlobals {
  objects : heap;
  sep5_species : dict addr;
  sep5h_species : dict addr;
  sep5h_interactions : list Interaction
}.

(** [d[key].field = ...]: the object is found through the dictionary [d] and
    changed in the heap; [None] is the [KeyError] of a missing key. *)
Definition setattr_in (d : dict addr) (key : string) (f : Species -> Species)
    (h : heap) : option heap :=
  match dict_get key d with
  | Some a => Some (update a f h)
  | None => None
  end.

(** [d[key]], the object read through the dictionary. *)
Definition getitem (d : dict addr) (key : string) (h : heap) : option Species :=
  match dict_get key d with
  | Some a => nth_error h a
  | None => None
  end.

(** The heap and [sep5_species] once the twelve species and the dictionary
    literal are evaluated. *)
Definition species_objects : heap := [
  commercial_constellation; commercial_other; gov_civil; military;
  small_satellites; rocket_bodies_commercial; rocket_bodies_gov;
  inactive_commercial; inactive_government; large_debris; medium_debris;
  small_debris ]%list.

Definition sep5_species_literal : dict addr := [
  ("commercial_constellation_sats", 0%nat);
  ("commercial_other_sats", 1%nat);
  ("gov_civil_sats", 2%nat);
  ("military_sats", 3%nat);
  ("small_sats", 4%nat);
  ("rocket_bodies_commercial", 5%nat);
  ("rocket_bodies_gov", 6%nat);
  ("inactive_commercial_sats", 7%nat);
  ("inactive_government_sats", 8%nat);
  ("large_debris", 9%nat);
  ("medium_debris", 10%nat);
  ("small_debris", 11%nat) ]%list.

Definition bind {A B : Type} (x : option A) (k : A -> option B) : option B :=
  match x with
  | Some a => k a
  | None => None
  end.

Notation "x <- e ;; k" := (bind e (fun x => k))
  (at level 61, e at next level, right associativity).

(** The statements from [sep5h_species = sep5_species.copy()] to the end of
    the module.  [dict.copy()] gives a new dictionary holding the same
    references. *)
Definition derive_variant (h0 : heap) (base : dict addr) : option Globals :=
  let sep5h := base in
  h1 <- setattr_in sep5h "commercial_constellation_sats" (with_pmd_success_rate 0.99) h0 ;;
  h2 <- setattr_in sep5h "commercial_other_sats" (with_pmd_success_rate 0.99) h1 ;;
  h3 <- setattr_in sep5h "gov_civil_sats" (with_pmd_success_rate 0.95) h2 ;;
  h4 <- setattr_in sep5h "military_sats" (with_pmd_success_rate 0.95) h3 ;;
  h5 <- setattr_in sep5h "rocket_bodies_commercial" (with_explosion_probability 0.01) h4 ;;
  h6 <- setattr_in sep5h "rocket_bodies_commercial" (with_pmd_success_rate 0.98) h5 ;;
  Some {| objects := h6;
          sep5_species := base;
          sep5h_species := sep5h;
          sep5h_interactions :=
            (interactions ++
             [ {| species_a := "inactive_commercial_sats";
                  species_b := None;
                  interaction_type := "removal";
                  probability_fn := fun t alt => if t >=? 5 then 15 / 2000 else 0;
                  products := [] |} ])%list |}.

(** The module after import. *)
Definition module_globals : option Globals :=
  derive_variant species_objects sep5_species_literal.

End SEP.

(* ================================================================= *)
(** * Properties *)

(** ** Dictionaries and enumeration *)

Section DictFacts.
Context {V : Type}.
Implicit Types (d : Py.dict V) (k : string) (v : V).

Lemma dict_get_set_same d k v : Py.dict_get k (Py.dict_set k v d) = Some v.
Proof.
  induction d as [|[k' v'] d IH]; simpl.
  - now rewrite String.eqb_refl.
  - destruct (String.eqb k' k) eqn:E; simpl; rewrite E; auto.
Qed.

Lemma dict_get_set_other d k k' v :
  k <> k' -> Py.dict_get k' (Py.dict_set k v d) = Py.dict_get k' d.
Proof.
  intros Hne. induction d as [|[k0 v0] d IH]; simpl.
  - destruct (String.eqb k k') eqn:E; auto.
    apply String.eqb_eq in E. contradiction.
  - destruct (String.eqb k0 k) eqn:E; simpl.
    + apply String.eqb_eq in E. subst k0.
      destruct (String.eqb k k') eqn:E'; auto.
      apply String.eqb_eq in E'. contradiction.
    + now rewrite IH.
Qed.

(** A loop of assignments whose keys all differ from [k] leaves [d[k]]
    alone. *)
Lemma fold_set_get_other {X : Type} (g : X -> string) (h : X -> V) k :
  forall (xs : list X) d,
    (forall x, In x xs -> g x <> k) ->
    Py.dict_get k (fold_left (fun d x => Py.dict_set (g x) (h x) d) xs d)
    = Py.dict_get k d.
Proof.
  induction xs as [|x xs IH]; intros d Hk; simpl; auto.
  rewrite IH by (intros; apply Hk; now right).
  apply dict_get_set_other. apply Hk. now left.
Qed.

(** The last assignment to a key is the one that is read back. *)
Lemma fold_set_get_last {X : Type} (g : X -> string) (h : X -> V) :
  forall (before : list X) (x : X) (after : list X) d,
    (forall x', In x' after -> g x' <> g x) ->
    Py.dict_get (g x)
      (fold_left (fun d x => Py.dict_set (g x) (h x) d) (before ++ x :: after)%list d)
    = Some (h x).
Proof.
  intros before x after d Hafter.
  rewrite fold_left_app. simpl.
  rewrite fold_set_get_other by assumption.
  apply dict_get_set_same.
Qed.

End DictFacts.

Lemma enumerate_from_In {A : Type} (xs : list A) :
  forall start i x,
    In (i, x) (Py.enumerate_from start xs) <->
    start <= i /\ nth_error xs (i - start) = Some x.
Proof.
  induction xs as [|y xs IH]; intros start i x; simpl.
  - split; [tauto|]. intros [_ H]. destruct (i - start); discriminate.
  - rewrite IH. split.
    + intros [H | [Hle H]].
      * inversion H; subst. rewrite Nat.sub_diag. auto.
      * split; [lia|]. replace (i - start) with (S (i - S start)) by lia. exact H.
    + intros [Hle H]. destruct (i - start) as [|m] eqn:E.
      * left. inversion H; subst. f_equal. lia.
      * right. split; [lia|]. replace (i - S start) with m by lia. exact H.
Qed.

Lemma enumerate_In {A : Type} (xs : list A) i x :
  In (i, x) (Py.enumerate xs) <-> nth_error xs i = Some x.
Proof.
  unfold Py.enumerate. rewrite enumerate_from_In, Nat.sub_0_r.
  split; [tauto | split; [lia | assumption]].
Qed.

Lemma zip_map_self {A B : Type} (f : A -> B) (xs : list A) :
  Py.zip xs (map f xs) = map (fun x => (x, f x)) xs.
Proof. induction xs; simpl; congruence. Qed.

Section DictUnique.
Context {V X : Type} (g : X -> string) (h : X -> V).

(** When every assignment to a key stores the same value, that value is the
    one read back. *)
Lemma fold_set_get_unique (xs : list X) (d : Py.dict V) (x : X) :
  In x xs ->
  (forall x', In x' xs -> g x' = g x -> h x' = h x) ->
  Py.dict_get (g x) (fold_left (fun d x => Py.dict_set (g x) (h x) d) xs d)
  = Some (h x).
Proof.
  induction xs as [|x0 xs IH] using rev_ind; intros Hin Hsame.
  - destruct Hin.
  - rewrite fold_left_app. simpl.
    destruct (string_dec (g x0) (g x)) as [E | NE].
    + rewrite <- E, dict_get_set_same. f_equal.
      apply Hsame; [apply in_or_app; right; now left | exact E].
    + rewrite dict_get_set_other by exact NE.
      apply IH.
      * apply in_app_or in Hin. destruct Hin as [Hin | [Hin | []]]; auto.
        subst x0. contradiction.
      * intros x' Hx'. apply Hsame. apply in_or_app. now left.
Qed.

End DictUnique.

(** ** Output series extraction *)

Section Extraction.
Import ReportPlots.

Lemma Qplus_0_l_eq (a : Q) : (0 + a)%Q = a.
Proof.
  destruct a as [n d]. unfold Qplus. simpl. now rewrite Z.mul_1_r.
Qed.

Lemma startswith_N (name : string) :
  Py.startswith name "N" = true <-> exists rest, name = String "N"%char rest.
Proof.
  unfold Py.startswith. destruct name as [|c rest]; cbn [String.prefix].
  - split; [discriminate | intros [r Hr]; discriminate].
  - destruct (ascii_dec "N"%char c) as [E | NE].
    + subst c. destruct rest; split; eauto.
    + split; [discriminate|]. intros [r Hr]. inversion Hr. congruence.
Qed.

Lemma debris_match_startswith (name : string) :
  debris_match name = Py.startswith name "N".
Proof.
  unfold debris_match, Py.startswith.
  destruct name as [|c rest]; cbn [String.prefix String.eqb orb]; [reflexivity|].
  destruct (ascii_dec "N"%char c) as [E | NE].
  - destruct rest; reflexivity.
  - cbn [orb]. destruct (Ascii.eqb c "N") eqn:E; [|reflexivity].
    apply Ascii.eqb_eq in E. congruence.
Qed.

Lemma select_indices_In (prefix : string) (names : list string) (i : nat) :
  In i (select_indices prefix names) <->
  exists nm, nth_error names i = Some nm /\ name_matches prefix nm = true.
Proof.
  unfold select_indices. rewrite in_map_iff. split.
  - intros [[j nm] [Hj Hin]]. simpl in Hj. subst j.
    apply filter_In in Hin. destruct Hin as [Hin Hm].
    apply enumerate_In in Hin. eauto.
  - intros [nm [Hnth Hm]]. exists (i, nm). split; [reflexivity|].
    apply filter_In. split; [now apply enumerate_In | exact Hm].
Qed.

Lemma filter_enumerate_from (P : string -> bool) (names : list string) :
  forall start,
    map snd (filter (fun p => P (snd p)) (Py.enumerate_from start names))
    = filter P names.
Proof.
  induction names as [|nm names IH]; intros start; simpl; [reflexivity|].
  destruct (P nm); simpl; now rewrite IH.
Qed.

(** The names returned are the matching names, in the order of the list. *)
Lemma selected_names (prefix : string) (names : list string) :
  map (fun i => nth i names EmptyString) (select_indices prefix names)
  = filter (name_matches prefix) names.
Proof.
  unfold select_indices, Py.enumerate.
  rewrite <- (filter_enumerate_from (name_matches prefix) names 0).
  rewrite map_map. apply map_ext_in.
  intros [i nm] Hin. simpl.
  apply filter_In in Hin. destruct Hin as [Hin _].
  apply (enumerate_In names) in Hin.
  now apply nth_error_nth.
Qed.

Lemma row_slice_nth_error (y : Np.matrix) (start n k : nat) :
  k < n ->
  nth_error (Np.row_slice y start (start + n)) k = nth_error y (start + k).
Proof.
  intros Hk. unfold Np.row_slice.
  replace (start + n - start) with n by lia.
  rewrite nth_error_firstn.
  destruct (Nat.ltb_spec k n); [|lia].
  now rewrite nth_error_skipn.
Qed.

Lemma row_slice_length (y : Np.matrix) (start n : nat) :
  start + n <= List.length y ->
  List.length (Np.row_slice y start (start + n)) = n.
Proof.
  intros H. unfold Np.row_slice.
  replace (start + n - start) with n by lia.
  rewrite length_firstn, length_skipn. lia.
Qed.

Lemma row_slice_Forall (P : list Q -> Prop) (y : Np.matrix) (start stop : nat) :
  Forall P y -> Forall P (Np.row_slice y start stop).
Proof.
  intros H. unfold Np.row_slice.
  rewrite <- (firstn_skipn start y) in H.
  apply Forall_app in H. destruct H as [_ H].
  rewrite <- (firstn_skipn (stop - start) (skipn start y)) in H.
  apply Forall_app in H. tauto.
Qed.

End Extraction.

Section ExtractionClaims.
Import ReportPlots.

Lemma select_indices_none (prefix : string) (names : list string) :
  (forall nm, In nm names -> name_matches prefix nm = false) ->
  select_indices prefix names = [].
Proof.
  intros Hnone.
  destruct (select_indices prefix names) as [|i rest] eqn:E; [reflexivity|].
  assert (Hin : In i (select_indices prefix names)) by (rewrite E; now left).
  apply select_indices_In in Hin. destruct Hin as [nm [Hnth Hm]].
  apply nth_error_In in Hnth. rewrite (Hnone nm Hnth) in Hm. discriminate.
Qed.

(** C5. With the species names pairwise distinct and the flattened output
    holding [n_shells] rows of [n_timesteps] columns per species, the data
    returned for a matched species at position [index] is the block of rows
    [index * n_shells, index * n_shells + n_shells) of the output, all
    columns: it has [n_shells] rows, each of [n_timesteps] entries, and its
    row [k] is row [index * n_shells + k] of the output. *)
Theorem extract_species_data_rows
    (sp : SimulationOutput) (prefix : string) (index : nat) (nm : string) :
  NoDup (species_names sp) ->
  List.length (output_y sp) = List.length (species_names sp) * n_shells sp ->
  Forall (fun row => List.length row = List.length (output_t sp)) (output_y sp) ->
  nth_error (species_names sp) index = Some nm ->
  name_matches prefix nm = true ->
  exists m : Np.matrix,
    In index (fst (fst (extract_species_data sp prefix))) /\
    Py.dict_get nm (snd (extract_species_data sp prefix)) = Some m /\
    m = Np.row_slice (output_y sp)
          (index * n_shells sp) (index * n_shells sp + n_shells sp) /\
    List.length m = n_shells sp /\
    Forall (fun row => List.length row = List.length (output_t sp)) m /\
    forall k, k < n_shells sp ->
              nth_error m k = nth_error (output_y sp) (index * n_shells sp + k).
Proof.
  intros Hnodup Hrows Hcols Hnth Hmatch.
  assert (Hsel : In index (select_indices prefix (species_names sp))).
  { apply select_indices_In. eauto. }
  eexists. split; [exact Hsel|]. split; [|split; [reflexivity|]].
  - unfold extract_species_data, fill_species_data. cbn [snd].
    rewrite zip_map_self.
    apply (fold_set_get_unique snd
             (fun p => Np.row_slice (output_y sp)
                         (fst p * n_shells sp) (fst p * n_shells sp + n_shells sp))
             _ [] (index, nm)).
    + apply in_map_iff. exists index. split; [|exact Hsel].
      f_equal. now apply nth_error_nth.
    + intros [i' nm'] Hin Hkey. cbn [fst snd] in *. subst nm'.
      apply in_map_iff in Hin. destruct Hin as [j [Hj Hjin]].
      inversion Hj; subst j. clear Hj.
      apply select_indices_In in Hjin. destruct Hjin as [nm' [Hnth' _]].
      rewrite (nth_error_nth _ _ _ Hnth') in H1. subst nm'.
      assert (i' = index).
      { apply (proj1 (NoDup_nth_error (species_names sp)) Hnodup).
        - apply nth_error_Some. congruence.
        - congruence. }
      now subst i'.
  - assert (Hlt : index < List.length (species_names sp)).
    { apply nth_error_Some. congruence. }
    split; [|split].
    + apply row_slice_length. nia.
    + now apply row_slice_Forall.
    + intros k Hk. now apply row_slice_nth_error.
Qed.

Lemma extract_species_data_rows_witness :
  exists m : Np.matrix,
    Py.dict_get "N_500_1cm"
      (snd (extract_species_data
              (mkOutput ["S_sat"; "N_500_1cm"] 1 [0%Q] [[3%Q]; [4%Q]]) "debris"))
    = Some m /\ m = [[4%Q]].
Proof.
  destruct (extract_species_data_rows
              (mkOutput ["S_sat"; "N_500_1cm"] 1 [0%Q] [[3%Q]; [4%Q]])
              "debris" 1 "N_500_1cm") as [m [_ [Hget [Hm _]]]].
  - repeat constructor; simpl; intuition discriminate.
  - reflexivity.
  - repeat constructor.
  - reflexivity.
  - reflexivity.
  - exists m. split; [exact Hget | exact Hm].
Defined.

(** C6. When no species name matches the selector, the extraction returns
    the empty index list, the empty name list and the empty data mapping; it
    is a total function, so nothing is raised.  Matching compares characters
    exactly: a lower-case first letter matches none of the categories. *)
Theorem extract_species_data_no_match (sp : SimulationOutput) (prefix : string) :
  (forall nm, In nm (species_names sp) -> name_matches prefix nm = false) ->
  extract_species_data sp prefix = ([], [], []) /\
  (forall rest, name_matches "debris" (String "n"%char rest) = false) /\
  (forall rest, name_matches "S" (String "s"%char rest) = false) /\
  (forall rest, name_matches "B" (String "b"%char rest) = false).
Proof.
  intros Hnone. split.
  - unfold extract_species_data.
    rewrite (select_indices_none _ _ Hnone). reflexivity.
  - repeat split; intros rest; reflexivity.
Qed.

Lemma extract_species_data_no_match_witness :
  extract_species_data
    (mkOutput ["Active_sat"; "n_500_1cm"] 3 [0%Q; 1%Q] []) "debris" = ([], [], []).
Proof.
  apply (extract_species_data_no_match
           (mkOutput ["Active_sat"; "n_500_1cm"] 3 [0%Q; 1%Q] []) "debris").
  intros nm [H | [H | []]]; subst nm; reflexivity.
Defined.

(** C10. The debris selector matches a name exactly when its first character
    is [N]: the names returned for the debris category are the names of the
    list that start with [N], in order, whatever the species stands for.  A
    species called NewSats is selected and its block is the debris total. *)
Theorem debris_selector_first_character :
  (forall nm, name_matches "debris" nm = true <->
              exists rest, nm = String "N"%char rest) /\
  (forall sp, snd (fst (extract_species_data sp "debris"))
              = filter (fun nm => Py.startswith nm "N") (species_names sp)) /\
  (forall sp i, In i (fst (fst (extract_species_data sp "debris"))) <->
                exists rest, nth_error (species_names sp) i
                             = Some (String "N"%char rest)) /\
  name_matches "debris" "NewSats" = true /\
  (forall a b t : Q,
     let sp := mkOutput ["S"; "NewSats"] 1 [t] [[a]; [b]] in
     extract_species_data sp "debris" = ([1], ["NewSats"], [("NewSats", [[b]])]) /\
     total_objects sp (snd (extract_species_data sp "debris")) = Some [[b]]).
Proof.
  assert (Hm : forall nm, name_matches "debris" nm = Py.startswith nm "N").
  { intros nm. unfold name_matches. cbn [String.eqb Ascii.eqb]. simpl.
    apply debris_match_startswith. }
  split; [|split; [|split; [|split]]].
  - intros nm. rewrite Hm. apply startswith_N.
  - intros sp. unfold extract_species_data. cbn [fst snd].
    rewrite selected_names. apply filter_ext. exact Hm.
  - intros sp i. unfold extract_species_data. cbn [fst snd].
    rewrite select_indices_In. split.
    + intros [nm [Hnth H]]. rewrite Hm in H. apply startswith_N in H.
      destruct H as [rest ->]. eauto.
    + intros [rest Hnth]. eexists. split; [exact Hnth|].
      rewrite Hm. apply startswith_N. eauto.
  - reflexivity.
  - intros a b t sp. split; [reflexivity|].
    unfold total_objects, sum_species. cbn -[Qplus].
    now rewrite Qplus_0_l_eq.
Qed.

(** C3, as stated, fails on the second part: with the names Active_sat and
    N_500_1cm the selector S matches nothing, since Active_sat does not
    start with S, so no matrix is returned for it. *)
Lemma extract_active_sat_counterexample :
  Py.dict_get "Active_sat"
    (snd (extract_species_data
            (mkOutput ["Active_sat"; "N_500_1cm"] 3 [0%Q; 1%Q]
               [[1%Q; 2%Q]; [3%Q; 4%Q]; [5%Q; 6%Q];
                [7%Q; 8%Q]; [9%Q; 10%Q]; [11%Q; 12%Q]]) "S"))
  <> Some [[1%Q; 2%Q]; [3%Q; 4%Q]; [5%Q; 6%Q]].
Proof.
  discriminate.
Qed.

(** C3, amended. For [n_shells = 3], two timesteps and the names Active_sat
    and N_500_1cm, the category debris returns exactly the block of rows 3
    to 5, the 3 x 2 matrix of N_500_1cm; the category S returns nothing for
    this list, and returns the block of rows 0 to 2 when the first species
    is named S_sat; the total of two debris species is the element-wise sum
    of their two blocks. *)
Theorem extract_species_data_example
    (a0 b0 a1 b1 a2 b2 a3 b3 a4 b4 a5 b5 t0 t1 : Q) :
  let y := [[a0; b0]; [a1; b1]; [a2; b2]; [a3; b3]; [a4; b4]; [a5; b5]] in
  let sp := mkOutput ["Active_sat"; "N_500_1cm"] 3 [t0; t1] y in
  let sp_s := mkOutput ["S_sat"; "N_500_1cm"] 3 [t0; t1] y in
  let sp_n := mkOutput ["N_500_1cm"; "N_1000_1cm"] 3 [t0; t1] y in
  extract_species_data sp "debris"
  = ([1], ["N_500_1cm"], [("N_500_1cm", [[a3; b3]; [a4; b4]; [a5; b5]])]) /\
  extract_species_data sp "S" = ([], [], []) /\
  extract_species_data sp_s "S"
  = ([0], ["S_sat"], [("S_sat", [[a0; b0]; [a1; b1]; [a2; b2]])]) /\
  extract_species_data sp_n "debris"
  = ([0; 1], ["N_500_1cm"; "N_1000_1cm"],
     [("N_500_1cm", [[a0; b0]; [a1; b1]; [a2; b2]]);
      ("N_1000_1cm", [[a3; b3]; [a4; b4]; [a5; b5]])]) /\
  total_objects sp_n (snd (extract_species_data sp_n "debris"))
  = Some [[a0 + a3; b0 + b3]; [a1 + a4; b1 + b4]; [a2 + a5; b2 + b5]]%Q.
Proof.
  cbv zeta. repeat split; try reflexivity.
  unfold total_objects, sum_species. cbn -[Qplus].
  now rewrite !Qplus_0_l_eq.
Qed.

End ExtractionClaims.

(** ** Species, interactions and the variant derivation *)

Section ScenarioClaims.
Import SEP.
Local Open Scope Q_scope.

Lemma geb_ge (x y : Q) : geb x y = true <-> y <= x.
Proof. unfold geb, leb. apply Qle_bool_iff. Qed.

(** The derived mapping holds the very objects of the base mapping: reading
    a species through either gives the same record. *)
Lemma derive_variant_shares (h0 : heap) (base : Py.dict addr) (g : Globals) :
  derive_variant h0 base = Some g ->
  forall nm, getitem (sep5h_species g) nm (objects g)
             = getitem (sep5_species g) nm (objects g).
Proof.
  unfold derive_variant, bind. intros H nm.
  repeat match type of H with
         | match ?e with _ => _ end = _ => destruct e; [|discriminate]
         end.
  inversion H. reflexivity.
Qed.

(** C1 fails on the code: [sep5_species.copy()] copies the mapping, not the
    [Species] objects, so each override made through [sep5h_species] is seen
    through [sep5_species] as well.  After the module has run, the base
    mapping gives 0.99, 0.99, 0.95 and 0.95 for the [pmd_success_rate] that
    was defined as 0.98, 0.95, 0.90 and 0.90, and 0.01 and 0.98 for the
    rocket bodies defined with 0.015 and 0.90. *)
Theorem variant_derivation_mutates_base :
  exists g : Globals,
    module_globals = Some g /\
    sep5h_species g = sep5_species g /\
    pmd_success_rate commercial_constellation = 0.98 /\
    option_map pmd_success_rate
      (getitem (sep5_species g) "commercial_constellation_sats" (objects g))
    = Some 0.99 /\
    pmd_success_rate commercial_other = 0.95 /\
    option_map pmd_success_rate
      (getitem (sep5_species g) "commercial_other_sats" (objects g))
    = Some 0.99 /\
    pmd_success_rate gov_civil = 0.90 /\
    option_map pmd_success_rate
      (getitem (sep5_species g) "gov_civil_sats" (objects g))
    = Some 0.95 /\
    pmd_success_rate military = 0.90 /\
    option_map pmd_success_rate
      (getitem (sep5_species g) "military_sats" (objects g))
    = Some 0.95 /\
    explosion_probability rocket_bodies_commercial = Some 0.015 /\
    option_map explosion_probability
      (getitem (sep5_species g) "rocket_bodies_commercial" (objects g))
    = Some (Some 0.01) /\
    pmd_success_rate rocket_bodies_commercial = 0.90 /\
    option_map pmd_success_rate
      (getitem (sep5_species g) "rocket_bodies_commercial" (objects g))
    = Some 0.98.
Proof.
  eexists. split; [reflexivity|].
  repeat split.
Qed.

(** C8. For every species of the scenario, before and after the variant is
    derived, and for every altitude, [lifetime], [mass] and [area] return a
    number, and a positive one: each cascade ends in an [else]. *)
Theorem species_properties_defined :
  let defined (s : Species) :=
    forall alt : Q,
      (exists v, lifetime_fn s alt = v /\ 0 < v) /\
      (exists v, mass_fn s alt = v /\ 0 < v) /\
      (exists v, area_fn s alt = v /\ 0 < v) in
  Forall defined species_objects /\
  match module_globals with
  | Some g => Forall defined (objects g)
  | None => False
  end.
Proof.
  cbv zeta. split; [|cbv [module_globals derive_variant bind setattr_in]; simpl].
  all: repeat (apply Forall_cons || apply Forall_nil).
  all: intros alt; cbn [lifetime_fn mass_fn area_fn commercial_constellation
         commercial_other gov_civil military small_satellites
         rocket_bodies_commercial rocket_bodies_gov inactive_commercial
         inactive_government large_debris medium_debris small_debris
         with_pmd_success_rate with_explosion_probability].
  all: repeat match goal with
              | |- context [if ?b then _ else _] => destruct b
              end.
  all: repeat split; eexists; (split; [reflexivity | reflexivity]).
Qed.

(** C9. The probability of the removal interaction of the scenario is 0 at
    every time before 5 and 10/2000 at every time from 5 on, 5 included,
    whatever the altitude. *)
Theorem removal_probability_step (r : Interaction) (t alt : Q) :
  In r interactions ->
  interaction_type r = "removal" ->
  (t < 5 -> probability_fn r t alt = 0) /\
  (5 <= t -> probability_fn r t alt = 10 / 2000) /\
  probability_fn r 5 alt = 10 / 2000.
Proof.
  intros Hin Htype.
  unfold interactions in Hin.
  repeat (destruct Hin as [Hin | Hin];
          [subst r; try discriminate Htype|]); [|destruct Hin].
  cbn [probability_fn]. repeat split.
  - intros Hlt. destruct (t >=? 5) eqn:E; [|reflexivity].
    apply geb_ge in E. exfalso. now apply (Qlt_not_le t 5).
  - intros Hle. apply geb_ge in Hle. now rewrite Hle.
Qed.

Lemma removal_probability_step_witness :
  exists r : Interaction,
    nth_error interactions 7 = Some r /\
    probability_fn r 3 400 = 0 /\
    probability_fn r 7 400 = 10 / 2000 /\
    probability_fn r 5 400 = 10 / 2000.
Proof.
  eexists. split; [reflexivity|].
  split; [|split].
  - eapply (removal_probability_step _ 3 400);
      [do 7 right; left; reflexivity | reflexivity | reflexivity].
  - eapply (removal_probability_step _ 7 400);
      [do 7 right; left; reflexivity | reflexivity | discriminate].
  - eapply (removal_probability_step _ 5 400);
      [do 7 right; left; reflexivity | reflexivity].
Defined.

End ScenarioClaims.

(** ** The density table *)

Section TableFacts.
Import ReformatDensity.
Context {V : Type}.

Lemma enumerate_from_app {A : Type} (xs ys : list A) :
  forall start,
    Py.enumerate_from start (xs ++ ys)%list
    = (Py.enumerate_from start xs
       ++ Py.enumerate_from (start + List.length xs) ys)%list.
Proof.
  induction xs as [|x xs IH]; intros start; simpl.
  - now rewrite Nat.add_0_r.
  - rewrite IH. now rewrite Nat.add_succ_r.
Qed.

Lemma enumerate_from_snd {A : Type} (xs : list A) :
  forall start p, In p (Py.enumerate_from start xs) -> In (snd p) xs.
Proof.
  induction xs as [|x xs IH]; intros start p; simpl; [tauto|].
  intros [H | H]; [subst p; now left | right; eauto].
Qed.

Lemma zip_In_fst {A B : Type} (xs : list A) :
  forall (ys : list B) p, In p (Py.zip xs ys) -> In (fst p) xs.
Proof.
  induction xs as [|x xs IH]; intros [|y ys] p; simpl; try tauto.
  intros [H | H]; [subst p; now left | right; eauto].
Qed.

(** The pairing of the altitude labels with a row, split at a column the
    row has. *)
Lemma zip_split {A B : Type} (xs1 : list A) (x : A) (xs2 : list A) :
  forall (ys : list B) (y : B),
    nth_error ys (List.length xs1) = Some y ->
    exists ps1 ps2,
      Py.zip (xs1 ++ x :: xs2)%list ys = (ps1 ++ (x, y) :: ps2)%list /\
      forall p, In p ps2 -> In (fst p) xs2.
Proof.
  induction xs1 as [|x1 xs1 IH]; intros [|y0 ys] y Hnth; simpl in *;
    try discriminate.
  - inversion Hnth; subst. exists [], (Py.zip xs2 ys). split; [reflexivity|].
    apply zip_In_fst.
  - destruct (IH ys y Hnth) as [ps1 [ps2 [Hz Hps]]].
    exists ((x1, y0) :: ps1), ps2. split; [|exact Hps].
    simpl. now rewrite Hz.
Qed.

(** Rows whose labels all differ from [lab] leave the entry of [lab] as it
    was. *)
Lemma fill_table_get_other (alts : list string) (sspdata : list (list V))
    (lab : string) :
  forall (rows : list (nat * string)) (t0 t : table V),
    fill_table alts sspdata rows t0 = Py.Ok t ->
    (forall p, In p rows -> snd p <> lab) ->
    Py.dict_get lab t = Py.dict_get lab t0.
Proof.
  induction rows as [|[i s] rows IH]; intros t0 t Hfill Hother; simpl in Hfill.
  - now inversion Hfill.
  - destruct (nth_error sspdata i) as [row|]; [|discriminate].
    rewrite (IH _ _ Hfill) by (intros; apply Hother; now right).
    apply dict_get_set_other. apply (Hother (i, s)). now left.
Qed.

(** The last row stored under a label is the one the table holds. *)
Lemma fill_table_get_last (alts : list string) (sspdata : list (list V))
    (i : nat) (lab : string) (after : list (nat * string)) :
  forall (before : list (nat * string)) (t0 t : table V),
    fill_table alts sspdata (before ++ (i, lab) :: after)%list t0 = Py.Ok t ->
    (forall p, In p after -> snd p <> lab) ->
    exists row,
      nth_error sspdata i = Some row /\
      Py.dict_get lab t = Some (Some (Py.dict_of (Py.zip alts row))).
Proof.
  induction before as [|[i0 s0] before IH]; intros t0 t Hfill Hafter;
    simpl in Hfill.
  - destruct (nth_error sspdata i) as [row|]; [|discriminate].
    exists row. split; [reflexivity|].
    rewrite (fill_table_get_other _ _ _ _ _ _ Hfill Hafter).
    apply dict_get_set_same.
  - destruct (nth_error sspdata i0) as [row0|]; [|discriminate].
    eapply IH; eassumption.
Qed.

End TableFacts.

Section TableClaims.
Import ReformatDensity.

(** [str] is one to one on integers. *)
Lemma str_of_Z_inj (a b : Z) : Py.str_of_Z a = Py.str_of_Z b -> a = b.
Proof.
  unfold Py.str_of_Z. intros H.
  assert (Hnn : forall z, Z.to_int z <> Decimal.Pos Decimal.Nil /\
                          Z.to_int z <> Decimal.Neg Decimal.Nil).
  { intros [|p|p]; simpl; split; try discriminate;
      intros E; inversion E as [E'];
      now apply DecimalPos.Unsigned.to_uint_nonnil in E'. }
  apply DecimalZ.to_int_inj.
  assert (E : Some (Z.to_int a) = Some (Z.to_int b)).
  { rewrite <- (NilZero.isi (Z.to_int a)) by apply Hnn.
    rewrite <- (NilZero.isi (Z.to_int b)) by apply Hnn.
    now rewrite H. }
  now inversion E.
Qed.

(** C7, as stated, fails when two decimal years of the array fall in the
    same month: both rows are stored under one label and the later row
    replaces the earlier one.  Here 2020.0 and 2020.01 both give the label
    of January 2020, and the value read back for the first row is the
    density of the second. *)
Lemma density_table_round_trip_counterexample :
  exists t : table Z,
    main (mkRawData (repeat [[1%Z]; [2%Z]] 10) [600%Z] [2020%Q; 2020.01%Q]) 0
    = Py.Ok t /\
    nth_error [2020%Q; 2020.01%Q] 0 = Some 2020%Q /\
    nth_error [[1%Z]; [2%Z]] 0 = Some [1%Z] /\
    table_get t (period_label 2020%Q) (Py.str_of_Z 600) = Some 2%Z /\
    table_get t (period_label 2020%Q) (Py.str_of_Z 600) <> Some 1%Z.
Proof.
  eexists. split; [reflexivity|].
  split; [reflexivity|]. split; [reflexivity|].
  split; [reflexivity | discriminate].
Qed.

(** C7, amended. For a decimal year at position [i] and an altitude at
    position [j] of the ordinate arrays, when no later decimal year gets the
    same period label and no later altitude is the same, the value read back
    from the built table under the period label and the altitude label is
    the density stored at row [i], column [j] of the selected array,
    unchanged. *)
Theorem density_table_round_trip {V : Type}
    (d : RawData V) (ssp : Z) (tojson : table V) (k i j : nat)
    (sspdata : list (list V)) (row : list V) (frac : Q) (alt : Z) (v : V) :
  main d ssp = Py.Ok tojson ->
  ssp_index ssp = Some k ->
  nth_error (dens d) k = Some sspdata ->
  nth_error (year_rs d) i = Some frac ->
  nth_error (alt_rs d) j = Some alt ->
  nth_error sspdata i = Some row ->
  nth_error row j = Some v ->
  (forall i' frac', i < i' -> nth_error (year_rs d) i' = Some frac' ->
                    period_label frac' <> period_label frac) ->
  (forall j' alt', j < j' -> nth_error (alt_rs d) j' = Some alt' ->
                   alt' <> alt) ->
  table_get tojson (period_label frac) (Py.str_of_Z alt) = Some v.
Proof.
  intros Hmain Hk Hdens Hyear Halt Hrow Hv Hlater_year Hlater_alt.
  unfold main in Hmain. rewrite Hk, Hdens in Hmain.
  destruct (nth_error_split _ _ Hyear) as [ys1 [ys2 [Hys Hlen1]]].
  destruct (nth_error_split _ _ Halt) as [as1 [as2 [Has Hlen2]]].
  remember (Py.dict_fromkeys (str_years d) None) as t0 eqn:Ht0. clear Ht0.
  unfold str_years, str_alts, Py.enumerate in Hmain.
  rewrite Hys, map_app, enumerate_from_app in Hmain.
  cbn [map Py.enumerate_from] in Hmain.
  apply fill_table_get_last in Hmain.
  - destruct Hmain as [row' [Hrow' Hget]].
    rewrite length_map, Hlen1 in Hrow'. cbn [Nat.add] in Hrow'.
    assert (row' = row) by congruence. subst row'.
    unfold table_get. rewrite Hget.
    rewrite Has, map_app. cbn [map].
    destruct (zip_split (map Py.str_of_Z as1) (Py.str_of_Z alt)
                (map Py.str_of_Z as2) row v) as [ps1 [ps2 [Hz Hps]]].
    { now rewrite length_map, Hlen2. }
    rewrite Hz. unfold Py.dict_of.
    apply (fold_set_get_last fst snd ps1 (Py.str_of_Z alt, v) ps2 []).
    intros p Hp Hkey. cbn [fst] in Hkey.
    apply Hps in Hp. rewrite Hkey in Hp.
    apply in_map_iff in Hp. destruct Hp as [alt' [Hstr Hin]].
    apply str_of_Z_inj in Hstr. subst alt'.
    apply In_nth_error in Hin. destruct Hin as [m Hm].
    apply (Hlater_alt (S (j + m)) alt); [lia | | reflexivity].
    rewrite Has, nth_error_app2 by lia.
    replace (S (j + m) - List.length as1) with (S m) by lia. exact Hm.
  - intros p Hp Hkey.
    apply enumerate_from_snd in Hp. rewrite Hkey in Hp.
    apply in_map_iff in Hp. destruct Hp as [frac' [Hlab Hin]].
    apply In_nth_error in Hin. destruct Hin as [m Hm].
    apply (Hlater_year (S (i + m)) frac'); [lia | | exact Hlab].
    rewrite Hys, nth_error_app2 by lia.
    replace (S (i + m) - List.length ys1) with (S m) by lia. exact Hm.
Qed.

Lemma density_table_round_trip_witness :
  exists t : table Z,
    main (mkRawData (repeat [[1%Z; 2%Z]; [3%Z; 4%Z]] 10)
            [550%Z; 600%Z] [2020%Q; 2020.5%Q]) 0 = Py.Ok t /\
    table_get t (period_label 2020.5%Q) (Py.str_of_Z 550) = Some 3%Z.
Proof.
  eexists. split; [reflexivity|].
  apply (density_table_round_trip
           (mkRawData (repeat [[1%Z; 2%Z]; [3%Z; 4%Z]] 10)
              [550%Z; 600%Z] [2020%Q; 2020.5%Q])
           0 _ 9 1 0 [[1%Z; 2%Z]; [3%Z; 4%Z]] [3%Z; 4%Z]);
    try reflexivity.
  - intros [|[|[|i']]] frac' Hlt Hnth; simpl in Hnth; try lia; discriminate.
  - intros [|[|[|j']]] alt' Hlt Hnth; simpl in Hnth; try lia;
      try discriminate.
    inversion Hnth. discriminate.
Defined.

(** A fraction of the year of 23/24 or more is rounded to twelve twelfths,
    and the month number becomes 13: nothing carries it into the next
    year. *)
Lemma month_of_thirteen (frac : Q) :
  (23 # 24 <= frac - inject_Z (year_of frac))%Q ->
  month_of frac = 13%Z /\
  period_label frac
  = substring 0 10 (format_4_0f (year_of frac) ++ "-13").
Proof.
  intros Hfrac.
  assert (Hm : month_of frac = 13%Z).
  { unfold month_of, Np.round.
    set (x := ((frac - inject_Z (year_of frac)) * 12)%Q) in *.
    assert (Hlo : (23 # 2 <= x)%Q).
    { unfold x. setoid_replace (23 # 2)%Q with ((23 # 24) * 12)%Q by reflexivity.
      apply Qmult_le_compat_r; [exact Hfrac | discriminate]. }
    assert (Hhi : (x < 12)%Q).
    { unfold x. setoid_replace 12%Q with (1 * 12)%Q at 2 by reflexivity.
      apply Qmult_lt_compat_r; [reflexivity|].
      unfold year_of, Np.floor.
      apply Qplus_lt_l with (z := inject_Z (Qfloor frac)).
      setoid_replace (frac - inject_Z (Qfloor frac) + inject_Z (Qfloor frac))%Q
        with frac by ring.
      apply Qlt_le_trans with (inject_Z (Qfloor frac + 1)); [apply Qlt_floor|].
      rewrite inject_Z_plus, Qplus_comm. apply Qle_refl. }
    assert (Hfl : Qfloor x = 11%Z).
    { assert (H1 : (11 <= Qfloor x)%Z).
      { change 11%Z with (Qfloor 11%Q). apply Qfloor_resp_le.
        apply Qle_trans with (23 # 2)%Q; [discriminate | exact Hlo]. }
      assert (H2 : (Qfloor x < 12)%Z).
      { rewrite Zlt_Qlt. apply Qle_lt_trans with x; [apply Qfloor_le | exact Hhi]. }
      lia. }
    rewrite Hfl.
    destruct (Qcompare (x - inject_Z 11) (1 # 2)) eqn:E; try reflexivity.
    exfalso. rewrite <- Qlt_alt in E.
    apply (Qlt_not_le _ _ E).
    apply Qplus_le_l with (z := inject_Z 11).
    setoid_replace (x - inject_Z 11 + inject_Z 11)%Q with x by ring.
    exact Hlo. }
  split; [exact Hm|]. unfold period_label. now rewrite Hm.
Qed.

(** C2 fails on the code: the decimal year 2020.999 is labelled 2020-13, and
    the built table has that label as its key; the label 2021-01 is not
    produced. *)
Theorem period_label_month_13 :
  year_of 2020.999%Q = 2020%Z /\
  month_of 2020.999%Q = 13%Z /\
  period_label 2020.999%Q = "2020-13" /\
  period_label 2020.999%Q <> "2021-01" /\
  forall (V : Type) (v : V),
    main (mkRawData (repeat [[v]] 10) [600%Z] [2020.999%Q]) 0
    = Py.Ok [("2020-13", Some [("600", v)])].
Proof.
  repeat split; try reflexivity. discriminate.
Qed.

End TableClaims.

(** ** The density grid *)

Section DensityClaims.
Import ReportPlots.

Lemma map2_length {A B C : Type} (f : A -> B -> C) (xs : list A) :
  forall ys, List.length xs = List.length ys ->
             List.length (Np.map2 f xs ys) = List.length xs.
Proof.
  induction xs as [|x xs IH]; intros [|y ys] H; simpl in *; try discriminate;
    auto.
Qed.

Lemma map2_ext_Forall {A B C : Type} (P : A -> Prop) (f g : A -> B -> C)
    (xs : list A) :
  (forall x y, P x -> f x y = g x y) ->
  Forall P xs ->
  forall ys, Np.map2 f xs ys = Np.map2 g xs ys.
Proof.
  intros Hfg HP. induction HP as [|x xs Hx HP IH]; intros [|y ys]; simpl; auto.
  now rewrite Hfg, IH.
Qed.

Lemma map2_fst {A B : Type} (xs : list A) :
  forall ys : list B, List.length xs = List.length ys ->
                      Np.map2 (fun x _ => x) xs ys = xs.
Proof.
  induction xs as [|x xs IH]; intros [|y ys] H; simpl in *; try discriminate;
    auto.
  now rewrite IH by lia.
Qed.

Lemma map2_map2_l {A B C D : Type} (f : A -> B -> C) (g : C -> B -> D)
    (xs : list A) :
  forall ys, Np.map2 g (Np.map2 f xs ys) ys
             = Np.map2 (fun x y => g (f x y) y) xs ys.
Proof.
  induction xs as [|x xs IH]; intros [|y ys]; simpl; auto.
  now rewrite IH.
Qed.

Lemma map2_Forall {A B C : Type} (P : A -> Prop) (Q : C -> Prop)
    (f : A -> B -> C) (xs : list A) :
  (forall x y, P x -> Q (f x y)) ->
  Forall P xs ->
  forall ys, Forall Q (Np.map2 f xs ys).
Proof.
  intros Hf HP. induction HP as [|x xs Hx HP IH]; intros [|y ys]; simpl; auto.
Qed.

Lemma map2_map_r {A B C D : Type} (f : A -> C -> D) (h : B -> C) (xs : list A) :
  forall ys, Np.map2 f xs (map h ys) = Np.map2 (fun x y => f x (h y)) xs ys.
Proof.
  induction xs as [|x xs IH]; intros [|y ys]; simpl; auto.
  now rewrite IH.
Qed.

Lemma map2_const_l {A B C : Type} (h : B -> C) (xs : list A) :
  forall ys, List.length xs = List.length ys ->
             Np.map2 (fun _ y => h y) xs ys = map h ys.
Proof.
  induction xs as [|x xs IH]; intros [|y ys] H; simpl in *; try discriminate;
    auto.
  now rewrite IH by lia.
Qed.

Lemma set_nth_length {A : Type} (x : A) (xs : list A) :
  forall i, List.length (set_nth i x xs) = List.length xs.
Proof.
  induction xs as [|y xs IH]; intros [|i]; simpl; auto.
Qed.

(** Storing [c] in column [start] of a row whose columns from [start + 1]
    will be overwritten next. *)
Lemma set_nth_overwrite {A : Type} (c : A) (n : nat) (row : list A) :
  forall start,
    start + S n <= List.length row ->
    (firstn (S start) (set_nth start c row) ++ repeat c n
       ++ skipn (S start + n) (set_nth start c row))%list
    = (firstn start row ++ repeat c (S n) ++ skipn (start + S n) row)%list.
Proof.
  induction row as [|y row IH]; intros [|start] Hlen; simpl in *; try lia.
  - reflexivity.
  - f_equal. apply IH. lia.
Qed.

Lemma broadcast_length {A : Type} (n : nat) (xs ys : list A) :
  Np.broadcast n xs = Some ys -> List.length ys = n.
Proof.
  unfold Np.broadcast. destruct (Nat.eqb_spec (List.length xs) n) as [E | NE].
  - intros H. inversion H. now subst.
  - destruct xs as [|x [|x' xs]]; try discriminate.
    intros H. inversion H. apply repeat_length.
Qed.

(** The loop changes entries only: the array keeps its shape, whether the
    loop ends or raises. *)
Lemma fill_columns_shape (f : Q -> Py.result Np.vector) (n : nat) :
  forall (its : list (nat * Q)) (m m' : Np.matrix) (e : option string),
    fill_columns f its m = (m', e) ->
    Forall (fun row => List.length row = n) m ->
    List.length m' = List.length m /\
    Forall (fun row => List.length row = n) m'.
Proof.
  induction its as [|[i t] its IH]; intros m m' e Hfill Hrows; simpl in Hfill.
  - inversion Hfill. subst. auto.
  - destruct (f t) as [v | msg]; [|inversion Hfill; subst; auto].
    unfold assign_column in Hfill.
    destruct (Np.broadcast (List.length m) v) as [col|] eqn:Hb;
      [|inversion Hfill; subst; auto].
    apply broadcast_length in Hb.
    apply IH in Hfill.
    + rewrite map2_length in Hfill by congruence. exact Hfill.
    + apply map2_Forall with (P := fun row => List.length row = n);
        [|exact Hrows].
      intros row c Hrow. now rewrite set_nth_length.
Qed.

(** A loop that stores the same profile in every column, from [start] on. *)
Lemma fill_columns_const (prof : Np.vector) :
  forall (ts : list Q) (start : nat) (m : Np.matrix),
    List.length m = List.length prof ->
    Forall (fun row => start + List.length ts <= List.length row) m ->
    fill_columns (fun _ => Py.Ok prof) (Py.enumerate_from start ts) m
    = (Np.map2 (fun row c => firstn start row ++ repeat c (List.length ts)
                               ++ skipn (start + List.length ts) row)%list
         m prof, None).
Proof.
  induction ts as [|t ts IH]; intros start m Hlen Hrows; simpl.
  - f_equal. symmetry.
    rewrite (map2_ext_Forall (fun _ => True) _ (fun row _ => row)).
    + now apply map2_fst.
    + intros row c _. rewrite Nat.add_0_r. apply firstn_skipn.
    + apply Forall_forall. auto.
  - unfold assign_column, Np.broadcast.
    rewrite <- Hlen, Nat.eqb_refl.
    rewrite IH.
    + f_equal. rewrite map2_map2_l.
      apply map2_ext_Forall
        with (P := fun row => start + S (List.length ts) <= List.length row);
        [|exact Hrows].
      intros row c Hrow. now apply set_nth_overwrite.
    + now rewrite map2_length.
    + apply map2_Forall
        with (P := fun row => start + S (List.length ts) <= List.length row);
        [|exact Hrows].
      intros row c Hrow. rewrite set_nth_length. lia.
Qed.

(** On an array of the shape of the grid, the fallback loop stores
    [exp(-altitude / 100)] in every cell and does not raise. *)
Lemma fill_columns_fallback (np_exp : Q -> Q) (altitudes : Np.vector)
    (ts : list Q) (m : Np.matrix) :
  List.length m = List.length altitudes ->
  Forall (fun row => List.length row = List.length ts) m ->
  fill_columns (fun _ => Py.Ok (fallback_profile np_exp altitudes))
    (Py.enumerate ts) m
  = (map (fun a => repeat (np_exp (- a / 100)%Q) (List.length ts)) altitudes,
     None).
Proof.
  intros Hlen Hrows. unfold Py.enumerate.
  rewrite fill_columns_const.
  - f_equal. unfold fallback_profile. rewrite map2_map_r.
    rewrite (map2_ext_Forall
               (fun row => List.length row = List.length ts) _
               (fun _ a => repeat (np_exp (- a / 100)%Q) (List.length ts)));
      [now apply map2_const_l | | exact Hrows].
    intros row a Hrow. cbn [firstn Nat.add app].
    rewrite skipn_all2 by lia. apply app_nil_r.
  - unfold fallback_profile. now rewrite length_map.
  - eapply Forall_impl; [|exact Hrows]. intros row Hrow. simpl in *. lia.
Qed.

Lemma zeros_shape (rows cols : nat) :
  List.length (Np.zeros rows cols) = rows /\
  Forall (fun row => List.length row = cols) (Np.zeros rows cols).
Proof.
  unfold Np.zeros. split; [apply repeat_length|].
  apply Forall_forall. intros row Hrow.
  apply repeat_spec in Hrow. subst row. apply repeat_length.
Qed.

(** What the function does where it is guarded.  Without a density model
    the fallback grid is returned and the fallback is announced.  With a
    time-dependent model and its data, an exception raised while the grid is
    filled is caught: its message is printed and every cell of the returned
    grid holds the fallback value. *)
Lemma density_fallback_guarded (np_exp : Q -> Q) (sp : DensityProps) :
  let grid := map (fun a => repeat (np_exp (- a / 100)%Q)
                              (List.length (timestamps sp))) (R0_km sp) in
  let meshes := meshgrid (timestamps sp) (R0_km sp) in
  (density_model sp = None ->
   calculate_time_dependent_density np_exp sp
   = (["Falling back to simplified density calculation"],
      Py.Ok (fst meshes, snd meshes, grid))) /\
  (forall dm m e,
     density_model sp = Some dm ->
     String.eqb (dm_name dm) "static_exp_dens_func" = false ->
     has_density_data sp = true ->
     fill_columns (fun t => dm_call dm t (R0_km sp)) (Py.enumerate (timestamps sp))
       (Np.zeros (List.length (R0_km sp)) (List.length (timestamps sp)))
     = (m, Some e) ->
     calculate_time_dependent_density np_exp sp
     = (["Using JB2008 Time-Dependent Density Model";
         "Error calculating time-dependent density: " ++ e],
        Py.Ok (fst meshes, snd meshes, grid))).
Proof.
  cbv zeta. split.
  - intros Hnone. unfold calculate_time_dependent_density. rewrite Hnone.
    rewrite fill_columns_fallback; try apply zeros_shape. reflexivity.
  - intros dm m e Hdm Hname Hdata Hfill.
    unfold calculate_time_dependent_density.
    rewrite Hdm, Hname, Hdata, Hfill.
    destruct (fill_columns_shape _ (List.length (timestamps sp)) _ _ _ _ Hfill)
      as [Hlen Hrows]; [apply zeros_shape|].
    rewrite fill_columns_fallback; [reflexivity | | exact Hrows].
    rewrite Hlen. apply zeros_shape.
Qed.

(** C4 fails on the code.  With the static density model the call is not
    guarded: when it raises, the exception leaves the function, after the
    one line that announces the model, and no fallback grid is produced.
    With a model of another name and no [density_data] attribute neither
    branch is taken: the grid of zeros is returned and nothing is
    printed. *)
Theorem density_error_not_caught
    (np_exp : Q -> Q) (altitudes : Np.vector) (t0 : Q) (ts : list Q)
    (msg : string) (has_data : bool)
    (call : Q -> Np.vector -> Py.result Np.vector) :
  calculate_time_dependent_density np_exp
    {| R0_km := altitudes;
       timestamps := t0 :: ts;
       density_model :=
         Some {| dm_name := "static_exp_dens_func";
                 dm_call := fun _ _ => Py.Raise msg |};
       has_density_data := has_data |}
  = (["Using Static Density Model"], Py.Raise msg)
  /\
  calculate_time_dependent_density np_exp
    {| R0_km := altitudes;
       timestamps := t0 :: ts;
       density_model := Some {| dm_name := "JB2008_dens_func"; dm_call := call |};
       has_density_data := false |}
  = ([],
     Py.Ok (fst (meshgrid (t0 :: ts) altitudes),
            snd (meshgrid (t0 :: ts) altitudes),
            Np.zeros (List.length altitudes) (List.length (t0 :: ts)))).
Proof.
  split; reflexivity.
Qed.

End DensityClaims.

(* ================================================================= *)
(** * Further properties of the code *)

(** ** Name matching and the structure of the extraction *)

Section MatchingFacts.
Import ReportPlots.

Lemma prefix_app_l (a b : string) :
  forall s, String.prefix (a ++ b) s = true -> String.prefix a s = true.
Proof.
  induction a as [|c a IH]; intros s H.
  - destruct s; reflexivity.
  - destruct s as [|c' s]; cbn [String.append String.prefix] in *;
      [discriminate|].
    destruct (ascii_dec c c'); [now apply IH | discriminate].
Qed.

Lemma prefix_first_char (a c : ascii) (p rest : string) :
  String.prefix (String a p) (String c rest) = true -> a = c.
Proof.
  cbn [String.prefix]. destruct (ascii_dec a c); [auto | discriminate].
Qed.

(** Outside the debris category the patterns reduce to the selector. *)
Lemma name_matches_startswith (prefix name : string) :
  prefix <> "debris" ->
  name_matches prefix name = Py.startswith name prefix.
Proof.
  intros Hne. unfold name_matches.
  destruct (String.eqb_spec prefix "debris") as [E | _]; [contradiction|].
  unfold patterns, Py.startswith.
  destruct (String.eqb prefix "S" || String.eqb prefix "B"); cbn [existsb].
  - destruct (String.prefix (prefix ++ "_") name) eqn:E.
    + now rewrite (prefix_app_l _ _ _ E).
    + now rewrite orb_false_r.
  - apply orb_false_r.
Qed.

(** X1. For every selector other than debris, a name is selected exactly
    when it starts with the selector: the extra patterns S_ and B_ select
    nothing that S and B do not select already. *)
Theorem name_matches_is_startswith (prefix name : string) :
  prefix <> "debris" ->
  name_matches prefix name = Py.startswith name prefix.
Proof.
  exact (name_matches_startswith prefix name).
Qed.

Lemma name_matches_is_startswith_witness :
  name_matches "S" "Su" = Py.startswith "Su" "S" /\
  name_matches "S" "Su" = true.
Proof.
  split; [|reflexivity].
  apply (name_matches_is_startswith "S" "Su"). discriminate.
Defined.

(** X2. The three categories that [main] plots never share a species: no
    name is selected by two of the selectors S, B and debris. *)
Theorem categories_disjoint (name : string) :
  name_matches "S" name && name_matches "B" name = false /\
  name_matches "S" name && name_matches "debris" name = false /\
  name_matches "B" name && name_matches "debris" name = false.
Proof.
  rewrite !name_matches_startswith by discriminate.
  replace (name_matches "debris" name) with (Py.startswith name "N")
    by (symmetry; apply debris_match_startswith).
  unfold Py.startswith. destruct name as [|c rest]; [repeat split|].
  repeat split.
  all: match goal with
       | |- String.prefix (String ?a _) _ && String.prefix (String ?b _) _ = false =>
           destruct (String.prefix (String a EmptyString) (String c rest)) eqn:E1;
           destruct (String.prefix (String b EmptyString) (String c rest)) eqn:E2;
           try reflexivity;
           apply prefix_first_char in E1; apply prefix_first_char in E2;
           congruence
       end.
Qed.

End MatchingFacts.

Section ExtractionStructure.
Import ReportPlots.

Lemma dict_set_fresh {V : Type} (k : string) (v : V) (d : Py.dict V) :
  ~ In k (Py.dict_keys d) -> Py.dict_set k v d = (d ++ [(k, v)])%list.
Proof.
  induction d as [|[k' v'] d IH]; intros Hk; simpl; [reflexivity|].
  destruct (String.eqb_spec k' k) as [E | NE].
  - exfalso. apply Hk. now left.
  - rewrite IH; [reflexivity|]. intros H. apply Hk. now right.
Qed.

(** Assignments to pairwise distinct new keys append the entries in
    order. *)
Lemma fold_set_fresh {V X : Type} (g : X -> string) (h : X -> V) :
  forall (xs : list X) (d : Py.dict V),
    NoDup (map g xs) ->
    (forall x, In x xs -> ~ In (g x) (Py.dict_keys d)) ->
    fold_left (fun d x => Py.dict_set (g x) (h x) d) xs d
    = (d ++ map (fun x => (g x, h x)) xs)%list.
Proof.
  induction xs as [|x xs IH]; intros d Hnd Hfresh; simpl.
  - now rewrite app_nil_r.
  - inversion Hnd as [|? ? Hx Hnd']; subst.
    rewrite dict_set_fresh by (apply Hfresh; now left).
    rewrite IH; [now rewrite <- app_assoc | exact Hnd' |].
    intros x' Hx' Hin. unfold Py.dict_keys in Hin.
    rewrite map_app in Hin. apply in_app_or in Hin.
    destruct Hin as [Hin | [Hin | []]].
    + apply (Hfresh x'); [now right | exact Hin].
    + simpl in Hin. apply Hx. rewrite Hin. now apply in_map.
Qed.

Lemma filter_enumerate_sorted (P : nat * string -> bool) (names : list string) :
  forall start,
    StronglySorted lt (map fst (filter P (Py.enumerate_from start names))) /\
    Forall (fun i => start <= i < start + List.length names)
      (map fst (filter P (Py.enumerate_from start names))).
Proof.
  induction names as [|nm names IH]; intros start; simpl.
  - split; constructor.
  - destruct (IH (S start)) as [Hs Hb].
    assert (Hb' : Forall (fun i => start <= i < start + S (List.length names))
                    (map fst (filter P (Py.enumerate_from (S start) names)))).
    { eapply Forall_impl; [|exact Hb]. simpl. intros; lia. }
    destruct (P (start, nm)); simpl; [|now split].
    split.
    + constructor; [exact Hs|].
      eapply Forall_impl; [|exact Hb]. simpl. intros; lia.
    + constructor; [lia | exact Hb'].
Qed.

Lemma sorted_split (l : list nat) (x : nat) :
  StronglySorted lt l -> In x l ->
  exists l1 l2, l = (l1 ++ x :: l2)%list /\ Forall (lt x) l2.
Proof.
  induction 1 as [|y l Hs IH Hy]; intros Hin; [destruct Hin|].
  destruct Hin as [E | Hin].
  - subst y. exists [], l. now split.
  - destruct (IH Hin) as [l1 [l2 [El Hl2]]].
    exists (y :: l1), l2. split; [simpl; now rewrite El | exact Hl2].
Qed.

(** X3. Whatever the selector, the returned indices are positions of the
    name list in strictly increasing order, and the returned names are the
    selected names in the order of the list, one per index. *)
Theorem extract_species_data_order (sp : SimulationOutput) (prefix : string) :
  let '(indices, names, _) := extract_species_data sp prefix in
  StronglySorted lt indices /\
  Forall (fun i => i < List.length (species_names sp)) indices /\
  names = filter (name_matches prefix) (species_names sp) /\
  List.length names = List.length indices.
Proof.
  unfold extract_species_data.
  destruct (filter_enumerate_sorted
              (fun p => name_matches prefix (snd p)) (species_names sp) 0)
    as [Hs Hb].
  split; [exact Hs|]. split.
  { eapply Forall_impl; [|exact Hb]. simpl. intros; lia. }
  split; [apply selected_names | apply length_map].
Qed.

(** X4. When two selected species carry the same name, the data mapping
    keeps one entry for it, and that entry is the block of rows of the last
    of them: a species at position [index] is found under its name with its
    own block whenever no later species of the list has that name. *)
Theorem extract_species_data_last_wins
    (sp : SimulationOutput) (prefix : string) (index : nat) (nm : string) :
  nth_error (species_names sp) index = Some nm ->
  name_matches prefix nm = true ->
  (forall j, index < j -> nth_error (species_names sp) j <> Some nm) ->
  Py.dict_get nm (snd (extract_species_data sp prefix))
  = Some (Np.row_slice (output_y sp)
            (index * n_shells sp) (index * n_shells sp + n_shells sp)).
Proof.
  intros Hnth Hmatch Hlater.
  assert (Hsel : In index (select_indices prefix (species_names sp))).
  { apply select_indices_In. eauto. }
  destruct (filter_enumerate_sorted
              (fun p => name_matches prefix (snd p)) (species_names sp) 0)
    as [Hs _].
  destruct (sorted_split _ _ Hs Hsel) as [l1 [l2 [El Hl2]]].
  unfold extract_species_data, fill_species_data. cbn [snd].
  rewrite zip_map_self.
  change (select_indices prefix (species_names sp) = (l1 ++ index :: l2)%list)
    in El.
  assert (Hall : forall j, In j l2 ->
                           In j (select_indices prefix (species_names sp))).
  { intros j Hj. rewrite El. apply in_or_app. right. now right. }
  rewrite El, map_app. cbn [map].
  rewrite (nth_error_nth _ _ EmptyString Hnth).
  apply (fold_set_get_last snd
           (fun p => Np.row_slice (output_y sp)
                       (fst p * n_shells sp) (fst p * n_shells sp + n_shells sp))
           _ (index, nm)).
  intros [j nm'] Hin Hkey. cbn [snd] in Hkey. subst nm'.
  apply in_map_iff in Hin. destruct Hin as [j' [Hj' Hin]].
  inversion Hj' as [[Ej Enm]]. subst j'.
  assert (Hlt : index < j).
  { rewrite Forall_forall in Hl2. now apply Hl2. }
  apply Hall, select_indices_In in Hin. destruct Hin as [nm' [Hnth' _]].
  apply (Hlater j Hlt).
  rewrite Hnth'. f_equal. rewrite <- Enm. symmetry.
  now apply nth_error_nth.
Qed.

Lemma extract_species_data_last_wins_witness :
  Py.dict_get "N"
    (snd (extract_species_data
            (mkOutput ["N"; "N"] 1 [0%Q] [[3%Q]; [4%Q]]) "debris"))
  = Some [[4%Q]].
Proof.
  apply (extract_species_data_last_wins
           (mkOutput ["N"; "N"] 1 [0%Q] [[3%Q]; [4%Q]]) "debris" 1 "N").
  - reflexivity.
  - reflexivity.
  - intros [|[|j]] Hlt; try lia.
    destruct j; discriminate.
Defined.

(** The three results for pairwise distinct names. *)
Lemma extract_distinct_names (sp : SimulationOutput) (prefix : string) :
  NoDup (species_names sp) ->
  extract_species_data sp prefix
  = (select_indices prefix (species_names sp),
     filter (name_matches prefix) (species_names sp),
     map (fun i => (nth i (species_names sp) EmptyString,
                    Np.row_slice (output_y sp)
                      (i * n_shells sp) (i * n_shells sp + n_shells sp)))
         (select_indices prefix (species_names sp))).
Proof.
  intros Hnd. unfold extract_species_data, fill_species_data.
  rewrite selected_names. f_equal.
  rewrite <- selected_names, zip_map_self.
  rewrite (fold_set_fresh snd
             (fun p => Np.row_slice (output_y sp)
                         (fst p * n_shells sp) (fst p * n_shells sp + n_shells sp))).
  - cbn [app]. now rewrite map_map.
  - rewrite map_map. cbn [snd]. rewrite selected_names.
    now apply NoDup_filter.
  - intros x _ [].
Qed.

(** X5. With pairwise distinct species names the three results are fully
    determined: the data mapping lists, in the order of the name list, each
    selected name with the block of [n_shells] rows that starts at
    [index * n_shells]. *)
Theorem extract_species_data_distinct (sp : SimulationOutput) (prefix : string) :
  NoDup (species_names sp) ->
  extract_species_data sp prefix
  = (select_indices prefix (species_names sp),
     filter (name_matches prefix) (species_names sp),
     map (fun i => (nth i (species_names sp) EmptyString,
                    Np.row_slice (output_y sp)
                      (i * n_shells sp) (i * n_shells sp + n_shells sp)))
         (select_indices prefix (species_names sp))).
Proof.
  exact (extract_distinct_names sp prefix).
Qed.

Lemma extract_species_data_distinct_witness :
  extract_species_data (mkOutput ["S"; "N_1"; "N_2"] 1 [0%Q] [[3%Q]; [4%Q]; [5%Q]])
    "debris"
  = ([1; 2], ["N_1"; "N_2"], [("N_1", [[4%Q]]); ("N_2", [[5%Q]])]).
Proof.
  apply (extract_species_data_distinct
           (mkOutput ["S"; "N_1"; "N_2"] 1 [0%Q] [[3%Q]; [4%Q]; [5%Q]]) "debris").
  repeat constructor; simpl; intuition discriminate.
Defined.

End ExtractionStructure.

(** ** The aggregation of the selected species *)

Section Aggregation.
Import ReportPlots.

Lemma map2_nth {A B C : Type} (f : A -> B -> C) (dx : A) (dy : B) (dz : C) :
  forall (xs : list A) (ys : list B) (i : nat),
    i < List.length xs -> i < List.length ys ->
    nth i (Np.map2 f xs ys) dz = f (nth i xs dx) (nth i ys dy).
Proof.
  induction xs as [|x xs IH]; intros [|y ys] [|i] Hx Hy; simpl in *; try lia;
    auto.
  apply IH; lia.
Qed.

Lemma nth_repeat_lt {A : Type} (a d : A) (n i : nat) :
  i < n -> nth i (repeat a n) d = a.
Proof.
  revert i. induction n as [|n IH]; intros [|i] H; simpl; try lia; auto.
  apply IH. lia.
Qed.

Lemma broadcast_same {A : Type} (xs : list A) (n : nat) :
  List.length xs = n -> Np.broadcast n xs = Some xs.
Proof.
  intros H. unfold Np.broadcast. now rewrite H, Nat.eqb_refl.
Qed.

(** Adding an array of the same shape never raises and adds entry by
    entry. *)
Lemma iadd_same_shape (cols : nat) :
  forall (total arr : Np.matrix),
    List.length arr = List.length total ->
    Forall (fun row => List.length row = cols) total ->
    Forall (fun row => List.length row = cols) arr ->
    Np.iadd total arr = Some (Np.map2 (Np.map2 Qplus) total arr).
Proof.
  intros total arr Hlen Ht Ha. unfold Np.iadd.
  rewrite broadcast_same by exact Hlen.
  revert arr Hlen Ha.
  induction Ht as [|trow total Htrow Ht IH]; intros [|arow arr] Hlen Ha;
    simpl in *; try discriminate; [reflexivity|].
  inversion Ha as [|? ? Harow Ha']; subst.
  unfold Np.iadd_row at 1.
  rewrite broadcast_same by congruence.
  now rewrite IH by (auto; lia).
Qed.

Lemma map2_rows_shape (rows cols : nat) (a b : Np.matrix) :
  List.length a = rows -> List.length b = rows ->
  Forall (fun row => List.length row = cols) a ->
  Forall (fun row => List.length row = cols) b ->
  List.length (Np.map2 (Np.map2 Qplus) a b) = rows /\
  Forall (fun row => List.length row = cols) (Np.map2 (Np.map2 Qplus) a b).
Proof.
  intros Ha Hb Fa Fb. split.
  - rewrite map2_length; congruence.
  - clear Ha Hb. revert b Fb.
    induction Fa as [|ra a Hra Fa IH]; intros [|rb b] Fb; simpl; constructor.
    + inversion Fb; subst. rewrite map2_length; congruence.
    + inversion Fb; subst. now apply IH.
Qed.

Lemma sum_loop_shaped (rows cols : nat) :
  forall (vals : list Np.matrix) (acc : Np.matrix),
    List.length acc = rows ->
    Forall (fun row => List.length row = cols) acc ->
    Forall (fun m => List.length m = rows /\
                     Forall (fun row => List.length row = cols) m) vals ->
    exists total,
      fold_left (fun acc arr => match acc with
                                | Some total => Np.iadd total arr
                                | None => None
                                end) vals (Some acc) = Some total /\
      List.length total = rows /\
      Forall (fun row => List.length row = cols) total /\
      forall r c, r < rows -> c < cols ->
        nth c (nth r total []) 0%Q
        = fold_left Qplus (map (fun m => nth c (nth r m []) 0%Q) vals)
            (nth c (nth r acc []) 0%Q).
Proof.
  induction vals as [|m vals IH]; intros acc Hlen Hrows Hvals; simpl.
  - exists acc. auto.
  - inversion Hvals as [|? ? [Hm Hmrows] Hvals']; subst.
    rewrite (iadd_same_shape cols) by (auto; congruence).
    destruct (map2_rows_shape (List.length acc) cols acc m)
      as [Hl Hr]; auto.
    destruct (IH _ Hl Hr Hvals') as [total [Hfold [Htl [Htr Hentry]]]].
    exists total. repeat split; auto.
    intros r c Hr' Hc. rewrite Hentry by assumption. f_equal.
    rewrite (map2_nth _ [] [] []) by lia.
    assert (Hra : List.length (nth r acc []) = cols).
    { rewrite Forall_forall in Hrows. apply Hrows, nth_In. lia. }
    assert (Hrm : List.length (nth r m []) = cols).
    { rewrite Forall_forall in Hmrows. apply Hmrows, nth_In. lia. }
    apply (map2_nth _ 0%Q 0%Q 0%Q); lia.
Qed.

(** The aggregation of blocks of one shape. *)
Lemma sum_species_same_shape (shells n_times : nat) (species_data : Py.dict Np.matrix) :
  Forall (fun m => List.length m = shells /\
                   Forall (fun row => List.length row = n_times) m)
    (Py.dict_values species_data) ->
  sum_species shells n_times [] = Some (Np.zeros shells n_times) /\
  exists total,
    sum_species shells n_times species_data = Some total /\
    List.length total = shells /\
    Forall (fun row => List.length row = n_times) total /\
    forall r c, r < shells -> c < n_times ->
      nth c (nth r total []) 0%Q
      = fold_left Qplus
          (map (fun m => nth c (nth r m []) 0%Q) (Py.dict_values species_data))
          0%Q.
Proof.
  intros Hvals. split; [reflexivity|].
  destruct (zeros_shape shells n_times) as [Hzl Hzr].
  destruct (sum_loop_shaped shells n_times _ _ Hzl Hzr Hvals)
    as [total [Hfold [Hl [Hr Hentry]]]].
  exists total. repeat split; auto.
  intros r c Hr' Hc. rewrite Hentry by assumption. f_equal.
  unfold Np.zeros. rewrite (nth_repeat_lt _ _ _ _ Hr').
  now apply nth_repeat_lt.
Qed.

(** X6. When every selected block has [n_shells] rows of as many columns
    as there are timesteps, the aggregation does not raise, the total has
    that shape, and each of its entries is the sum, taken from zero in the
    order of the mapping, of the entries of the blocks at that place.  With
    no block at all the total is the array of zeros. *)
Theorem sum_species_shaped (shells n_times : nat) (species_data : Py.dict Np.matrix) :
  Forall (fun m => List.length m = shells /\
                   Forall (fun row => List.length row = n_times) m)
    (Py.dict_values species_data) ->
  sum_species shells n_times [] = Some (Np.zeros shells n_times) /\
  exists total,
    sum_species shells n_times species_data = Some total /\
    List.length total = shells /\
    Forall (fun row => List.length row = n_times) total /\
    forall r c, r < shells -> c < n_times ->
      nth c (nth r total []) 0%Q
      = fold_left Qplus
          (map (fun m => nth c (nth r m []) 0%Q) (Py.dict_values species_data))
          0%Q.
Proof.
  exact (sum_species_same_shape shells n_times species_data).
Qed.

Lemma sum_species_shaped_witness :
  exists total,
    sum_species 1 2 [("N_1", [[1%Q; 2%Q]]); ("N_2", [[3%Q; 4%Q]])] = Some total /\
    nth 1 (nth 0 total []) 0%Q = (0 + 2 + 4)%Q.
Proof.
  destruct (sum_species_shaped 1 2
              [("N_1", [[1%Q; 2%Q]]); ("N_2", [[3%Q; 4%Q]])])
    as [_ [total [Hsum [_ [_ Hentry]]]]].
  - repeat constructor.
  - exists total. split; [exact Hsum|].
    apply (Hentry 0 1); lia.
Defined.

Lemma nth_of_nth_error {A : Type} (l1 l2 : list A) (i j : nat) (d : A) :
  nth_error l1 i = nth_error l2 j -> nth i l1 d = nth j l2 d.
Proof.
  intros H. destruct (nth_error l2 j) as [x|] eqn:E.
  - now rewrite (nth_error_nth _ _ _ H), (nth_error_nth _ _ _ E).
  - apply nth_error_None in H, E. now rewrite !nth_overflow by assumption.
Qed.

(** X7. For an output with pairwise distinct species names that holds
    [n_shells] rows of one column per timestep for each species, the total of
    a category is defined, has [n_shells] rows and one column per timestep,
    and its entry at shell [r] and timestep [c] is the sum over the selected
    species, in the order of the name list, of the output entries at row
    [index * n_shells + r], column [c]. *)
Theorem total_objects_of_extraction (sp : SimulationOutput) (prefix : string) :
  NoDup (species_names sp) ->
  List.length (output_y sp) = List.length (species_names sp) * n_shells sp ->
  Forall (fun row => List.length row = List.length (output_t sp)) (output_y sp) ->
  exists total,
    total_objects sp (snd (extract_species_data sp prefix)) = Some total /\
    List.length total = n_shells sp /\
    Forall (fun row => List.length row = List.length (output_t sp)) total /\
    forall r c, r < n_shells sp -> c < List.length (output_t sp) ->
      nth c (nth r total []) 0%Q
      = fold_left Qplus
          (map (fun i => nth c (nth (i * n_shells sp + r) (output_y sp) []) 0%Q)
             (select_indices prefix (species_names sp)))
          0%Q.
Proof.
  intros Hnd Hrows Hcols.
  rewrite (extract_distinct_names sp prefix Hnd). cbn [snd].
  unfold total_objects.
  set (blocks := map _ (select_indices prefix (species_names sp))).
  assert (Hin : forall i, In i (select_indices prefix (species_names sp)) ->
                          i < List.length (species_names sp)).
  { intros i Hi. apply select_indices_In in Hi. destruct Hi as [nm [Hi _]].
    apply nth_error_Some. congruence. }
  destruct (sum_species_same_shape (n_shells sp) (List.length (output_t sp)) blocks)
    as [_ [total [Hsum [Hl [Hr Hentry]]]]].
  { unfold blocks, Py.dict_values. rewrite map_map. cbn [snd].
    apply Forall_forall. intros m Hm.
    apply in_map_iff in Hm. destruct Hm as [i [Em Hi]]. subst m.
    split; [|now apply row_slice_Forall].
    apply row_slice_length. specialize (Hin i Hi). nia. }
  exists total. repeat split; auto.
  intros r c Hr' Hc. rewrite (Hentry r c Hr' Hc). f_equal.
  unfold blocks, Py.dict_values. rewrite !map_map. cbn [snd].
  apply map_ext. intros i. f_equal.
  apply nth_of_nth_error. now apply row_slice_nth_error.
Qed.

End Aggregation.

Section AggregationWitness.
Import ReportPlots.

Lemma total_objects_of_extraction_witness :
  exists total,
    total_objects (mkOutput ["N_1"; "N_2"] 1 [0%Q] [[3%Q]; [4%Q]])
      (snd (extract_species_data
              (mkOutput ["N_1"; "N_2"] 1 [0%Q] [[3%Q]; [4%Q]]) "debris"))
    = Some total /\
    nth 0 (nth 0 total []) 0%Q = (0 + 3 + 4)%Q.
Proof.
  destruct (total_objects_of_extraction
              (mkOutput ["N_1"; "N_2"] 1 [0%Q] [[3%Q]; [4%Q]]) "debris")
    as [total [Hsum [_ [_ Hentry]]]].
  - repeat constructor; simpl; intuition discriminate.
  - reflexivity.
  - repeat constructor.
  - exists total. split; [exact Hsum|].
    apply (Hentry 0 0); simpl; lia.
Defined.

End AggregationWitness.

(** ** Dates and tick positions *)

Section Dates.
Import ReportPlots.

Lemma Qfloor_unique (x : Q) (m : Z) :
  (inject_Z m <= x)%Q -> (x < inject_Z (m + 1))%Q -> Qfloor x = m.
Proof.
  intros Hlo Hhi.
  assert (H1 : (m <= Qfloor x)%Z).
  { rewrite <- (Qfloor_Z m). now apply Qfloor_resp_le. }
  assert (H2 : (Qfloor x < m + 1)%Z).
  { rewrite Zlt_Qlt. apply Qle_lt_trans with x; [apply Qfloor_le | exact Hhi]. }
  lia.
Qed.








End Dates.

Section Ticks.
Import ReportPlots.

Lemma sequence_all_some {A : Type} (xs : list (option A)) :
  Forall (fun o => o <> None) xs -> exists ys, Np.sequence xs = Some ys.
Proof.
  induction 1 as [|[x|] xs Hx Hxs [ys IH]]; simpl.
  - eauto.
  - rewrite IH. eauto.
  - congruence.
Qed.

Lemma getitem_in_range {A : Type} (xs : list A) (i : Z) :
  (0 <= i < Z.of_nat (List.length xs))%Z -> getitem xs i <> None.
Proof.
  intros [Hlo Hhi]. unfold getitem.
  destruct (Z.leb_spec 0 i); [|lia].
  apply nth_error_Some. lia.
Qed.

(** The samples of [np.linspace(0, n - 1, 5, dtype=int)] for [n > 10]. *)
Lemma linspace_ticks (n : nat) :
  10 < n ->
  exists a b c : Z,
    Np.linspace_int 0 (Z.of_nat n - 1) 5 = [0%Z; a; b; c; (Z.of_nat n - 1)%Z] /\
    (0 <= a <= b)%Z /\ (b <= c)%Z /\ (c <= Z.of_nat n - 1)%Z.
Proof.
  intros Hn. unfold Np.linspace_int. cbn [seq map app Nat.sub Z.of_nat].
  change (inject_Z 0) with 0%Q.
  change (inject_Z (Z.pos (Pos.of_succ_nat 0))) with 1%Q.
  change (inject_Z (Z.pos (Pos.of_succ_nat 1))) with 2%Q.
  change (inject_Z (Z.pos (Pos.of_succ_nat 2))) with 3%Q.
  change (inject_Z (Z.pos (Pos.of_succ_nat 3))) with 4%Q.
  set (N := inject_Z (Z.of_nat n - 1)).
  assert (HN : (10 <= N)%Q).
  { unfold N. change 10%Q with (inject_Z 10). rewrite <- Zle_Qle. lia. }
  assert (HNf : Qfloor N = (Z.of_nat n - 1)%Z) by apply Qfloor_Z.
  set (step := ((N - 0) / 4)%Q).
  assert (Hstep : (step == N * (1 # 4))%Q) by (unfold step; field).
  clearbody step. clearbody N.
  assert (Hmono : forall x y, (x <= y)%Q -> (Qfloor x <= Qfloor y)%Z)
    by apply Qfloor_resp_le.
  assert (H0 : Qfloor (0 * step + 0) = 0%Z).
  { apply Qfloor_unique.
    - change (inject_Z 0) with 0%Q. lra.
    - change (inject_Z (0 + 1)) with 1%Q. lra. }
  rewrite H0.
  eexists _, _, _. split; [reflexivity|].
  repeat split.
  - apply (Hmono 0%Q). lra.
  - apply Hmono. lra.
  - apply Hmono. lra.
  - rewrite <- HNf. apply Hmono. lra.
Qed.

(** X9. The tick positions of the plots are valid positions of the
    timestamps, so reading the timestamps and the dates at the ticks never
    goes out of bounds; there are at most ten ticks, in increasing order,
    and for a series that is not empty the first tick is the first timestep
    and the last tick the last timestep. *)
Theorem tick_indices_valid (n : nat) :
  Forall (fun i => (0 <= i < Z.of_nat n)%Z) (tick_indices n) /\
  List.length (tick_indices n) <= 10 /\
  StronglySorted Z.le (tick_indices n) /\
  hd_error (tick_indices (S n)) = Some 0%Z /\
  last (tick_indices (S n)) 0%Z = Z.of_nat n /\
  forall ts : list Q, exists positions, tick_positions ts = Some positions.
Proof.
  assert (Hrange : forall m, Forall (fun i => (0 <= i < Z.of_nat m)%Z)
                               (tick_indices m)).
  { intros m. unfold tick_indices. destruct (Nat.ltb_spec 10 m) as [Hm | Hm].
    - destruct (linspace_ticks m Hm) as [a [b [c [E H]]]]. rewrite E.
      repeat constructor; lia.
    - apply Forall_forall. intros i Hi.
      apply in_map_iff in Hi. destruct Hi as [k [<- Hk]].
      apply in_seq in Hk. lia. }
  split; [apply Hrange|]. split; [|split; [|split; [|split]]].
  - unfold tick_indices. destruct (Nat.ltb_spec 10 n) as [Hn | Hn].
    + destruct (linspace_ticks n Hn) as [a [b [c [E _]]]]. rewrite E. simpl. lia.
    + rewrite length_map, length_seq. exact Hn.
  - unfold tick_indices. destruct (Nat.ltb_spec 10 n) as [Hn | Hn].
    + destruct (linspace_ticks n Hn) as [a [b [c [E H]]]]. rewrite E.
      repeat constructor; lia.
    + generalize 0 as s. induction n as [|n IH]; intros s; simpl;
        [constructor|].
      constructor; [apply IH; lia|].
      apply Forall_forall. intros i Hi.
      apply in_map_iff in Hi. destruct Hi as [k [<- Hk]].
      apply in_seq in Hk. lia.
  - unfold tick_indices. destruct (Nat.ltb_spec 10 (S n)) as [Hn | Hn].
    + destruct (linspace_ticks (S n) Hn) as [a [b [c [E _]]]]. now rewrite E.
    + reflexivity.
  - unfold tick_indices. destruct (Nat.ltb_spec 10 (S n)) as [Hn | Hn].
    + destruct (linspace_ticks (S n) Hn) as [a [b [c [E _]]]]. rewrite E.
      cbn [last]. lia.
    + rewrite seq_S, map_app. cbn [map]. rewrite last_last. reflexivity.
  - intros ts. unfold tick_positions. apply sequence_all_some.
    apply Forall_forall. intros o Ho.
    apply in_map_iff in Ho. destruct Ho as [i [<- Hi]].
    apply getitem_in_range.
    pose proof (Hrange (List.length ts)) as H.
    rewrite Forall_forall in H. now apply H.
Qed.

End Ticks.

(** ** The density grid, where the model answers *)

Section DensityCells.
Import ReportPlots.

Lemma set_nth_other {A : Type} (c : A) (row : list A) :
  forall i j, i <> j -> nth_error (set_nth i c row) j = nth_error row j.
Proof.
  induction row as [|y row IH]; intros [|i] [|j] Hne; simpl; auto;
    try congruence.
Qed.

Lemma set_nth_same {A : Type} (c : A) (row : list A) :
  forall i, i < List.length row -> nth_error (set_nth i c row) i = Some c.
Proof.
  induction row as [|y row IH]; intros [|i] Hi; simpl in *; try lia; auto.
  apply IH. lia.
Qed.

(** The row [k] after [m[:, i] = col]. *)
Lemma assign_column_row (i : nat) (col : Np.vector) (m : Np.matrix) (k : nat) :
  List.length col = List.length m ->
  nth k (Np.map2 (fun row c => set_nth i c row) m col) []
  = set_nth i (nth k col 0%Q) (nth k m []).
Proof.
  intros Hlen. destruct (Nat.lt_ge_cases k (List.length m)) as [Hk | Hk].
  - apply (map2_nth (fun row c => set_nth i c row) [] 0%Q []); lia.
  - assert (Hk' : List.length (Np.map2 (fun row c => set_nth i c row) m col) <= k)
      by (rewrite map2_length; lia).
    rewrite (nth_overflow _ _ Hk'), (nth_overflow m _ Hk). now destruct i.
Qed.

(** The loop writes in the columns it is given and nowhere else. *)
Lemma fill_columns_frame (f : Q -> Py.result Np.vector) (j : nat) :
  forall (its : list (nat * Q)) (m m' : Np.matrix) (e : option string),
    fill_columns f its m = (m', e) ->
    (forall p, In p its -> fst p <> j) ->
    forall k, nth_error (nth k m' []) j = nth_error (nth k m []) j.
Proof.
  induction its as [|[i t] its IH]; intros m m' e Hfill Hj k; simpl in Hfill.
  - now inversion Hfill.
  - destruct (f t) as [v | msg]; [|now inversion Hfill].
    unfold assign_column in Hfill.
    destruct (Np.broadcast (List.length m) v) as [col|] eqn:Hb;
      [|now inversion Hfill].
    apply broadcast_length in Hb.
    rewrite (IH _ _ _ Hfill) by (intros; apply Hj; now right).
    rewrite assign_column_row by exact Hb.
    apply set_nth_other. apply (Hj (i, t)). now left.
Qed.

(** When the loop ends without raising, each column holds what [f] returned
    for its timestep, broadcast to the number of rows. *)
Lemma fill_columns_cells (f : Q -> Py.result Np.vector) (width : nat) :
  forall (ts : list Q) (start : nat) (m m' : Np.matrix),
    fill_columns f (Py.enumerate_from start ts) m = (m', None) ->
    Forall (fun row => List.length row = width) m ->
    start + List.length ts <= width ->
    forall i t, nth_error ts i = Some t ->
      exists v col,
        f t = Py.Ok v /\
        Np.broadcast (List.length m) v = Some col /\
        forall k, k < List.length m ->
                  nth_error (nth k m' []) (start + i) = nth_error col k.
Proof.
  induction ts as [|t0 ts IH]; intros start m m' Hfill Hrows Hw i t Hi.
  - destruct i; discriminate.
  - simpl in Hfill, Hw.
    destruct (f t0) as [v0 | msg] eqn:Ef; [|discriminate].
    unfold assign_column in Hfill.
    destruct (Np.broadcast (List.length m) v0) as [col0|] eqn:Hb;
      [|discriminate].
    pose proof (broadcast_length _ _ _ Hb) as Hcol.
    set (m1 := Np.map2 (fun row c => set_nth start c row) m col0) in *.
    assert (Hlen1 : List.length m1 = List.length m).
    { unfold m1. apply map2_length. congruence. }
    assert (Hrows1 : Forall (fun row => List.length row = width) m1).
    { unfold m1. apply map2_Forall with (P := fun row => List.length row = width);
        [|exact Hrows].
      intros row c Hrow. now rewrite set_nth_length. }
    destruct i as [|i]; simpl in Hi.
    + inversion Hi; subst t0. exists v0, col0. repeat split; auto.
      intros k Hk. rewrite Nat.add_0_r.
      rewrite (fill_columns_frame f start _ _ _ _ Hfill).
      * unfold m1. rewrite assign_column_row by exact Hcol.
        rewrite set_nth_same.
        -- symmetry. apply nth_error_nth'. lia.
        -- rewrite Forall_forall in Hrows. rewrite (Hrows (nth k m [])); [lia|].
           apply nth_In. exact Hk.
      * intros [i' t'] Hin. apply enumerate_from_In in Hin. simpl. lia.
    + destruct (IH (S start) m1 m' Hfill Hrows1 ltac:(lia) i t Hi)
        as [v [col [Hv [Hbc Hcells]]]].
      exists v, col. rewrite Hlen1 in Hbc, Hcells. repeat split; auto.
      intros k Hk. rewrite <- (Hcells k Hk). f_equal. lia.
Qed.

(** X10. The function lets an exception out only in the branch of the
    static model.  With another model, or with none, whatever the model
    raises, three arrays are returned. *)
Theorem density_raises_only_static
    (np_exp : Q -> Q) (sp : DensityProps) (e : string) :
  snd (calculate_time_dependent_density np_exp sp) = Py.Raise e ->
  exists dm, density_model sp = Some dm /\
             dm_name dm = "static_exp_dens_func".
Proof.
  unfold calculate_time_dependent_density.
  destruct (zeros_shape (List.length (R0_km sp)) (List.length (timestamps sp)))
    as [Hzl Hzr].
  destruct (density_model sp) as [dm|].
  - destruct (String.eqb_spec (dm_name dm) "static_exp_dens_func") as [E | NE];
      [intros _; eauto|].
    destruct (has_density_data sp); [|discriminate].
    destruct (fill_columns _ _ _) as [m [err|]] eqn:Hfill.
    + destruct (fill_columns_shape _ _ _ _ _ _ Hfill Hzr) as [Hl Hr].
      rewrite fill_columns_fallback; [discriminate | congruence | exact Hr].
    + discriminate.
  - rewrite fill_columns_fallback by assumption. discriminate.
Qed.

Lemma density_raises_only_static_witness :
  exists dm,
    Some {| dm_name := "static_exp_dens_func";
            dm_call := fun _ _ => Py.Raise "no species" |} = Some dm /\
    dm_name dm = "static_exp_dens_func".
Proof.
  apply (density_raises_only_static (fun x => x)
           {| R0_km := [200%Q];
              timestamps := [0%Q];
              density_model :=
                Some {| dm_name := "static_exp_dens_func";
                        dm_call := fun _ _ => Py.Raise "no species" |};
              has_density_data := false |}
           "no species").
  reflexivity.
Defined.

(** X11. When the function announces a model and prints no error, the
    returned grid has one row per shell altitude and one column per
    timestep, and the column of a timestep is what the model returned for
    it, broadcast over the altitudes. *)
Theorem density_grid_cells
    (np_exp : Q -> Q) (sp : DensityProps) (dm : DensityModel)
    (log : list string) (time_mesh altitude_mesh grid : Np.matrix) :
  density_model sp = Some dm ->
  calculate_time_dependent_density np_exp sp
  = (log, Py.Ok (time_mesh, altitude_mesh, grid)) ->
  log = ["Using Static Density Model"] \/
  log = ["Using JB2008 Time-Dependent Density Model"] ->
  List.length grid = List.length (R0_km sp) /\
  Forall (fun row => List.length row = List.length (timestamps sp)) grid /\
  forall i t, nth_error (timestamps sp) i = Some t ->
    exists v col,
      dm_call dm t (R0_km sp) = Py.Ok v /\
      Np.broadcast (List.length (R0_km sp)) v = Some col /\
      forall k, k < List.length (R0_km sp) ->
                nth_error (nth k grid []) i = nth_error col k.
Proof.
  intros Hdm Hcalc Hlog.
  unfold calculate_time_dependent_density in Hcalc. rewrite Hdm in Hcalc.
  destruct (zeros_shape (List.length (R0_km sp)) (List.length (timestamps sp)))
    as [Hzl Hzr].
  assert (Hmain : forall m,
            fill_columns (fun t => dm_call dm t (R0_km sp))
              (Py.enumerate (timestamps sp))
              (Np.zeros (List.length (R0_km sp)) (List.length (timestamps sp)))
            = (m, None) ->
            List.length m = List.length (R0_km sp) /\
            Forall (fun row => List.length row = List.length (timestamps sp)) m /\
            forall i t, nth_error (timestamps sp) i = Some t ->
              exists v col,
                dm_call dm t (R0_km sp) = Py.Ok v /\
                Np.broadcast (List.length (R0_km sp)) v = Some col /\
                forall k, k < List.length (R0_km sp) ->
                          nth_error (nth k m []) i = nth_error col k).
  { intros m Hfill.
    destruct (fill_columns_shape _ _ _ _ _ _ Hfill Hzr) as [Hl Hr].
    split; [congruence|]. split; [exact Hr|].
    intros i t Hi.
    destruct (fill_columns_cells _ _ _ 0 _ _ Hfill Hzr ltac:(simpl; lia) i t Hi)
      as [v [col [Hv [Hb Hcells]]]].
    rewrite Hzl in Hb, Hcells. exists v, col. repeat split; auto. }
  destruct (String.eqb (dm_name dm) "static_exp_dens_func").
  - destruct (fill_columns _ _ _) as [m [err|]] eqn:Hfill; [discriminate|].
    inversion Hcalc; subst. now apply Hmain.
  - destruct (has_density_data sp).
    + destruct (fill_columns _ _ _) as [m [err|]] eqn:Hfill.
      * destruct (fill_columns _ _ m) as [m2 [err2|]]; [discriminate|].
        inversion Hcalc; subst.
        destruct Hlog as [Hlog | Hlog]; discriminate.
      * inversion Hcalc; subst. now apply Hmain.
    + inversion Hcalc; subst. destruct Hlog as [Hlog | Hlog]; discriminate.
Qed.

Lemma density_grid_cells_witness :
  exists v col,
    (fun (t : Q) (alts : Np.vector) => Py.Ok (map (fun a => (a + t)%Q) alts))
      1%Q [200%Q; 250%Q] = Py.Ok v /\
    Np.broadcast 2 v = Some col /\
    nth_error (nth 1 [[200%Q; 201%Q]; [250%Q; 251%Q]] []) 1 = nth_error col 1.
Proof.
  destruct (density_grid_cells (fun x => x)
              {| R0_km := [200%Q; 250%Q];
                 timestamps := [0%Q; 1%Q];
                 density_model :=
                   Some {| dm_name := "static_exp_dens_func";
                           dm_call := fun t alts =>
                             Py.Ok (map (fun a => (a + t)%Q) alts) |};
                 has_density_data := false |}
              {| dm_name := "static_exp_dens_func";
                 dm_call := fun t alts => Py.Ok (map (fun a => (a + t)%Q) alts) |}
              ["Using Static Density Model"]
              [[0%Q; 1%Q]; [0%Q; 1%Q]]
              [[200%Q; 200%Q]; [250%Q; 250%Q]]
              [[200%Q; 201%Q]; [250%Q; 251%Q]])
    as [_ [_ Hcells]].
  - reflexivity.
  - vm_compute. reflexivity.
  - now left.
  - destruct (Hcells 1 1%Q eq_refl) as [v [col [Hv [Hb Hk]]]].
    exists v, col. repeat split; auto.
Defined.

End DensityCells.

(** ** Period labels *)

Section PeriodLabels.
Import ReformatDensity.

Lemma round_between (x : Q) :
  (Qfloor x <= Np.round x <= Qfloor x + 1)%Z.
Proof.
  unfold Np.round.
  destruct (Qcompare (x - inject_Z (Qfloor x)) (1 # 2)); [|lia|lia].
  destruct (Z.even (Qfloor x)); lia.
Qed.

(** [np.round] gives [k] on the open interval of radius one half around
    [k]. *)
Lemma round_near (x : Q) (k : Z) :
  (inject_Z k - (1 # 2) < x)%Q -> (x < inject_Z k + (1 # 2))%Q ->
  Np.round x = k.
Proof.
  intros Hlo Hhi. unfold Np.round.
  destruct (Qlt_le_dec x (inject_Z k)) as [Hlt | Hge].
  - assert (Hf : Qfloor x = (k - 1)%Z).
    { apply Qfloor_unique.
      - unfold Z.sub. rewrite inject_Z_plus. cbn [Z.opp].
        change (inject_Z (-1)) with (-1)%Q. lra.
      - replace (k - 1 + 1)%Z with k by lia. exact Hlt. }
    rewrite Hf.
    assert (E : Qcompare (x - inject_Z (k - 1)) (1 # 2) = Gt).
    { rewrite <- Qgt_alt. unfold Z.sub. rewrite inject_Z_plus. cbn [Z.opp].
      change (inject_Z (-1)) with (-1)%Q. lra. }
    rewrite E. lia.
  - assert (Hf : Qfloor x = k).
    { apply Qfloor_unique; [exact Hge|].
      rewrite inject_Z_plus. change (inject_Z 1) with 1%Q. lra. }
    rewrite Hf.
    assert (E : Qcompare (x - inject_Z k) (1 # 2) = Lt).
    { rewrite <- Qlt_alt. lra. }
    now rewrite E.
Qed.

Lemma year_of_spec (frac : Q) :
  (inject_Z (year_of frac) <= frac)%Q /\
  (frac < inject_Z (year_of frac) + 1)%Q.
Proof.
  unfold year_of, Np.floor. split; [apply Qfloor_le|].
  pose proof (Qlt_floor frac) as H. rewrite inject_Z_plus in H. exact H.
Qed.

(** X12. Whatever the decimal year, the month number that is written lies
    between 1 and 13, and the year that is written is the floor of the
    decimal year. *)
Theorem month_of_range (frac : Q) :
  (1 <= month_of frac <= 13)%Z /\
  (inject_Z (year_of frac) <= frac)%Q /\
  (frac < inject_Z (year_of frac) + 1)%Q.
Proof.
  destruct (year_of_spec frac) as [Hlo Hhi].
  split; [|split; assumption].
  unfold month_of.
  set (x := ((frac - inject_Z (year_of frac)) * 12)%Q).
  assert (H0 : (0 <= x)%Q) by (unfold x; lra).
  assert (H12 : (x < 12)%Q) by (unfold x; lra).
  pose proof (round_between x) as [Hr1 Hr2].
  assert (Hf0 : (0 <= Qfloor x)%Z).
  { change 0%Z with (Qfloor 0%Q). now apply Qfloor_resp_le. }
  assert (Hf12 : (Qfloor x < 12)%Z).
  { rewrite Zlt_Qlt. apply Qle_lt_trans with x; [apply Qfloor_le | exact H12]. }
  lia.
Qed.

(** X13. A decimal year that lies in year [y], less than half a twelfth
    away from [k] twelfths after its start, [k] from 0 to 11, is labelled
    with the year [y] and the month [k + 1]. *)
Theorem period_label_on_grid (y k : Z) (frac : Q) :
  (0 <= k <= 11)%Z ->
  (inject_Z y <= frac)%Q ->
  (inject_Z k / 12 - (1 # 24) < frac - inject_Z y)%Q ->
  (frac - inject_Z y < inject_Z k / 12 + (1 # 24))%Q ->
  year_of frac = y /\
  month_of frac = (k + 1)%Z /\
  period_label frac
  = substring 0 10 (format_4_0f y ++ "-" ++ format_02_0f (k + 1)).
Proof.
  intros [Hk0 Hk11] Hy Hlo Hhi.
  assert (Hk : (inject_Z k <= 11)%Q).
  { change 11%Q with (inject_Z 11). now rewrite <- Zle_Qle. }
  assert (Hd : (inject_Z k / 12 == inject_Z k * (1 # 12))%Q) by field.
  rewrite Hd in Hlo, Hhi. clear Hd.
  assert (Hyear : year_of frac = y).
  { unfold year_of, Np.floor. apply Qfloor_unique; [exact Hy|].
    rewrite inject_Z_plus. change (inject_Z 1) with 1%Q. lra. }
  assert (Hmonth : month_of frac = (k + 1)%Z).
  { unfold month_of. rewrite Hyear. f_equal.
    apply round_near; lra. }
  repeat split; auto.
  unfold period_label. now rewrite Hyear, Hmonth.
Qed.

Lemma period_label_on_grid_witness :
  period_label (2020 + 5 / 12)%Q = "2020-06".
Proof.
  apply (period_label_on_grid 2020 5 (2020 + 5 / 12)%Q).
  - lia.
  - discriminate.
  - reflexivity.
  - reflexivity.
Defined.

End PeriodLabels.

(** ** The built table: when it is built, its keys, reading a column *)

Section BuiltTable.
Import ReformatDensity.
Context {V : Type}.

Lemma dict_set_keys_existing {W : Type} (k : string) (v : W) (d : Py.dict W) :
  In k (Py.dict_keys d) -> Py.dict_keys (Py.dict_set k v d) = Py.dict_keys d.
Proof.
  induction d as [|[k' v'] d IH]; intros Hin; simpl in *; [destruct Hin|].
  destruct (String.eqb_spec k' k) as [E | NE]; [reflexivity|].
  simpl. f_equal. apply IH. destruct Hin; [contradiction | assumption].
Qed.

Lemma dict_set_keys {W : Type} (k : string) (v : W) (d : Py.dict W) :
  (NoDup (Py.dict_keys d) -> NoDup (Py.dict_keys (Py.dict_set k v d))) /\
  (forall k', In k' (Py.dict_keys (Py.dict_set k v d)) <->
              k' = k \/ In k' (Py.dict_keys d)).
Proof.
  destruct (in_dec string_dec k (Py.dict_keys d)) as [Hin | Hout].
  - rewrite dict_set_keys_existing by exact Hin. split; [auto|].
    intros k'. split; [auto | intros [-> | H]; auto].
  - rewrite dict_set_fresh by exact Hout.
    unfold Py.dict_keys. rewrite map_app. cbn [map fst]. split.
    + intros Hnd. apply NoDup_app; [exact Hnd | repeat constructor; auto |].
      intros x Hx [<- | []]. contradiction.
    + intros k'. rewrite in_app_iff. simpl. intuition.
Qed.

Lemma dict_fromkeys_keys {W : Type} (v0 : W) :
  forall (keys : list string) (d : Py.dict W),
    let r := fold_left (fun d k => Py.dict_set k v0 d) keys d in
    (NoDup (Py.dict_keys d) -> NoDup (Py.dict_keys r)) /\
    (forall k, In k (Py.dict_keys r) <-> In k (Py.dict_keys d) \/ In k keys).
Proof.
  induction keys as [|k0 keys IH]; intros d; simpl.
  - split; [auto | intros k; tauto].
  - destruct (IH (Py.dict_set k0 v0 d)) as [Hnd Hin].
    destruct (dict_set_keys k0 v0 d) as [Hnd0 Hin0].
    split; [auto|].
    intros k. rewrite Hin, Hin0. intuition.
Qed.

Lemma fill_table_keys (alts : list string) (sspdata : list (list V)) :
  forall (rows : list (nat * string)) (t0 t : table V),
    fill_table alts sspdata rows t0 = Py.Ok t ->
    (forall p, In p rows -> In (snd p) (Py.dict_keys t0)) ->
    Py.dict_keys t = Py.dict_keys t0.
Proof.
  induction rows as [|[i lab] rows IH]; intros t0 t Hfill Hin; simpl in Hfill.
  - now inversion Hfill.
  - destruct (nth_error sspdata i) as [row|]; [|discriminate].
    assert (Hk : Py.dict_keys (Py.dict_set lab (Some (Py.dict_of (Py.zip alts row))) t0)
                 = Py.dict_keys t0).
    { apply dict_set_keys_existing. apply (Hin (i, lab)). now left. }
    rewrite (IH _ _ Hfill); [exact Hk|].
    intros p Hp. rewrite Hk. apply Hin. now right.
Qed.

(** The loop over the rows ends without raising exactly when the array has
    a row for every label. *)
Lemma fill_table_ok_iff (alts : list string) (sspdata : list (list V)) :
  forall (labels : list string) (start : nat) (t0 : table V),
    (exists t, fill_table alts sspdata (Py.enumerate_from start labels) t0 = Py.Ok t)
    <-> labels = [] \/ start + List.length labels <= List.length sspdata.
Proof.
  induction labels as [|lab labels IH]; intros start t0; simpl.
  - split; [auto | eauto].
  - destruct (nth_error sspdata start) as [row|] eqn:E.
    + rewrite IH. assert (start < List.length sspdata).
      { apply nth_error_Some. congruence. }
      split.
      * intros [-> | H']; right; simpl; lia.
      * intros [H' | H']; [discriminate | right; lia].
    + apply nth_error_None in E. split.
      * intros [t Ht]. discriminate.
      * intros [H' | H']; [discriminate | lia].
Qed.

Lemma last_occurrence (lab : string) (labels : list string) :
  In lab labels ->
  exists l1 l2, labels = (l1 ++ lab :: l2)%list /\ ~ In lab l2.
Proof.
  induction labels as [|x labels IH]; intros Hin; [destruct Hin|].
  destruct (in_dec string_dec lab labels) as [Hl | Hl].
  - destruct (IH Hl) as [l1 [l2 [E Hn]]].
    exists (x :: l1), l2. split; [simpl; now rewrite E | exact Hn].
  - destruct Hin as [-> | Hin]; [|contradiction].
    exists [], labels. now split.
Qed.

(** When [main] returns the table and when it refuses the pathway. *)
Lemma main_ok_iff (d : RawData V) (ssp : Z) :
  ((exists t, main d ssp = Py.Ok t) <->
   exists k sspdata,
     ssp_index ssp = Some k /\
     nth_error (dens d) k = Some sspdata /\
     List.length (year_rs d) <= List.length sspdata) /\
  (ssp_index ssp = None <-> (ssp < 0 \/ 5 < ssp)%Z) /\
  (main d ssp = Py.Raise "Invalid SSP. Choose 1-5." <-> (ssp < 0 \/ 5 < ssp)%Z).
Proof.
  assert (Hidx : ssp_index ssp = None <-> (ssp < 0 \/ 5 < ssp)%Z).
  { unfold ssp_index.
    destruct ssp as [|p|p];
      [split; [discriminate | intros [H | H]; lia]
      | | split; [intros _; lia | auto]].
    destruct p as [[[p|p|]|[p|p|]|]|[[p|p|]|[p|p|]|]|];
      try destruct p as [p|p|]; cbn;
      (split; [intros H; try discriminate H; lia
              | intros [H | H]; try lia; reflexivity]). }
  split; [|split; [exact Hidx|]].
  - unfold main. destruct (ssp_index ssp) as [k|] eqn:Ek.
    + destruct (nth_error (dens d) k) as [sspdata|] eqn:Ed.
      * unfold Py.enumerate. rewrite fill_table_ok_iff.
        unfold str_years. rewrite length_map. split.
        -- intros H. exists k, sspdata. repeat split; auto.
           destruct H as [H | H]; [|simpl in H; lia].
           apply map_eq_nil in H. rewrite H. simpl. lia.
        -- intros [k' [s' [Hk [Hs Hlen]]]].
           inversion Hk; subst k'. rewrite Ed in Hs. inversion Hs; subst s'.
           right. simpl. lia.
      * split; [intros [t Ht]; discriminate|].
        intros [k' [s' [Hk [Hs _]]]]. inversion Hk; subst. congruence.
    + split; [intros [t Ht]; discriminate|].
      intros [k' [s' [Hk _]]]. discriminate.
  - rewrite <- Hidx. unfold main. destruct (ssp_index ssp) as [k|].
    + split; [|discriminate].
      destruct (nth_error (dens d) k) as [sspdata|]; [|discriminate].
      intros H. exfalso. revert H. unfold Py.enumerate.
      generalize (Py.dict_fromkeys (str_years d) (@None (Py.dict V))).
      generalize 0. generalize (str_years d).
      induction l as [|lab l IH]; intros n t0; simpl; [discriminate|].
      destruct (nth_error sspdata n); [apply IH | discriminate].
    + split; reflexivity.
Qed.

(** X14. The table is built exactly when the pathway number is one of 0 to
    5, the list of arrays holds the array that number selects, and that
    array has at least one row per decimal year.  A number outside 0 to 5 is
    refused with the message of the default case. *)
Theorem main_succeeds_iff (d : RawData V) (ssp : Z) :
  ((exists t, main d ssp = Py.Ok t) <->
   exists k sspdata,
     ssp_index ssp = Some k /\
     nth_error (dens d) k = Some sspdata /\
     List.length (year_rs d) <= List.length sspdata) /\
  (ssp_index ssp = None <-> (ssp < 0 \/ 5 < ssp)%Z) /\
  (main d ssp = Py.Raise "Invalid SSP. Choose 1-5." <-> (ssp < 0 \/ 5 < ssp)%Z).
Proof.
  exact (main_ok_iff d ssp).
Qed.

(** The keys and the entries of a table that was built. *)
Lemma built_table_keys (d : RawData V) (ssp : Z) (t : table V) :
  main d ssp = Py.Ok t ->
  NoDup (Py.dict_keys t) /\
  (forall lab, In lab (Py.dict_keys t) <-> In lab (str_years d)) /\
  (NoDup (str_years d) -> Py.dict_keys t = str_years d) /\
  (forall lab, In lab (str_years d) ->
     exists sspdata row,
       In sspdata (dens d) /\ In row sspdata /\
       Py.dict_get lab t = Some (Some (Py.dict_of (Py.zip (str_alts d) row)))).
Proof.
  unfold main. intros Hmain.
  destruct (ssp_index ssp) as [k|]; [|discriminate].
  destruct (nth_error (dens d) k) as [sspdata|] eqn:Hdens; [|discriminate].
  destruct (dict_fromkeys_keys (@None (Py.dict V)) (str_years d) [])
    as [Hnd Hin].
  fold (Py.dict_fromkeys (str_years d) (@None (Py.dict V))) in Hnd, Hin.
  assert (Hkeys : Py.dict_keys t
                  = Py.dict_keys (Py.dict_fromkeys (str_years d)
                                    (@None (Py.dict V)))).
  { apply (fill_table_keys _ _ _ _ _ Hmain).
    intros p Hp. apply Hin. right.
    now apply enumerate_from_snd in Hp. }
  rewrite Hkeys. split; [apply Hnd; constructor|].
  split; [intros lab; rewrite Hin; simpl; tauto|].
  split.
  - intros Hlabels. unfold Py.dict_fromkeys.
    rewrite (fold_set_fresh (fun k => k) (fun _ => @None (Py.dict V))).
    + unfold Py.dict_keys. cbn [app]. rewrite map_map. cbn [fst]. apply map_id.
    + now rewrite map_id.
    + intros x _ [].
  - intros lab Hlab.
    destruct (last_occurrence lab _ Hlab) as [l1 [l2 [E Hl2]]].
    unfold Py.enumerate in Hmain. rewrite E, enumerate_from_app in Hmain.
    cbn [Py.enumerate_from] in Hmain.
    apply fill_table_get_last in Hmain.
    + destruct Hmain as [row [Hrow Hget]].
      exists sspdata, row. split; [now apply nth_error_In in Hdens|].
      split; [now apply nth_error_In in Hrow | exact Hget].
    + intros p Hp Hkey. apply enumerate_from_snd in Hp. congruence.
Qed.


End BuiltTable.

Section BuiltTableWitnesses.
Import ReformatDensity.


End BuiltTableWitnesses.

Section SeriesFacts.
Import ReformatDensity.
Context {V : Type}.

(** The entry of a built table for a row and a column whose labels are not
    taken again later in the arrays. *)
Lemma built_table_entry
    (d : RawData V) (sspdata : list (list V)) (t0 t : table V)
    (i j : nat) (row : list V) (frac : Q) (alt : Z) (v : V) :
  fill_table (str_alts d) sspdata (Py.enumerate (str_years d)) t0 = Py.Ok t ->
  nth_error (year_rs d) i = Some frac ->
  nth_error (alt_rs d) j = Some alt ->
  nth_error sspdata i = Some row ->
  nth_error row j = Some v ->
  (forall i' frac', i < i' -> nth_error (year_rs d) i' = Some frac' ->
                    period_label frac' <> period_label frac) ->
  (forall j' alt', j < j' -> nth_error (alt_rs d) j' = Some alt' ->
                   alt' <> alt) ->
  table_get t (period_label frac) (Py.str_of_Z alt) = Some v.
Proof.
  intros Hfill Hyear Halt Hrow Hv Hlater_year Hlater_alt.
  destruct (nth_error_split _ _ Hyear) as [ys1 [ys2 [Hys Hlen1]]].
  destruct (nth_error_split _ _ Halt) as [as1 [as2 [Has Hlen2]]].
  unfold str_years, str_alts, Py.enumerate in Hfill.
  rewrite Hys, map_app, enumerate_from_app in Hfill.
  cbn [map Py.enumerate_from] in Hfill.
  apply fill_table_get_last in Hfill.
  - destruct Hfill as [row' [Hrow' Hget]].
    rewrite length_map, Hlen1 in Hrow'. cbn [Nat.add] in Hrow'.
    assert (row' = row) by congruence. subst row'.
    unfold table_get. rewrite Hget.
    rewrite Has, map_app. cbn [map].
    destruct (zip_split (map Py.str_of_Z as1) (Py.str_of_Z alt)
                (map Py.str_of_Z as2) row v) as [ps1 [ps2 [Hz Hps]]].
    { now rewrite length_map, Hlen2. }
    rewrite Hz. unfold Py.dict_of.
    apply (fold_set_get_last fst snd ps1 (Py.str_of_Z alt, v) ps2 []).
    intros p Hp Hkey. cbn [fst] in Hkey.
    apply Hps in Hp. rewrite Hkey in Hp.
    apply in_map_iff in Hp. destruct Hp as [alt' [Hstr Hin]].
    apply str_of_Z_inj in Hstr. subst alt'.
    apply In_nth_error in Hin. destruct Hin as [m Hm].
    apply (Hlater_alt (S (j + m)) alt); [lia | | reflexivity].
    rewrite Has, nth_error_app2 by lia.
    replace (S (j + m) - List.length as1) with (S m) by lia. exact Hm.
  - intros p Hp Hkey.
    apply enumerate_from_snd in Hp. rewrite Hkey in Hp.
    apply in_map_iff in Hp. destruct Hp as [frac' [Hlab Hin]].
    apply In_nth_error in Hin. destruct Hin as [m Hm].
    apply (Hlater_year (S (i + m)) frac'); [lia | | exact Hlab].
    rewrite Hys, nth_error_app2 by lia.
    replace (S (i + m) - List.length ys1) with (S m) by lia. exact Hm.
Qed.

Lemma lookup_all_nth (base : table V) (alt : string) :
  forall (keys : list string) (vals : list V),
    DensityVis.lookup_all base alt keys = Py.Ok vals ->
    List.length vals = List.length keys /\
    forall i key, nth_error keys i = Some key ->
      exists v, nth_error vals i = Some v /\
                DensityVis.lookup base key alt = Py.Ok v.
Proof.
  induction keys as [|key keys IH]; intros vals H; simpl in H.
  - inversion H. split; [reflexivity|]. intros [|i] k Hi; discriminate.
  - destruct (DensityVis.lookup base key alt) as [v|] eqn:Ev; [|discriminate].
    destruct (DensityVis.lookup_all base alt keys) as [vs|]; [|discriminate].
    inversion H; subst. destruct (IH vs eq_refl) as [Hlen Hnth].
    split; [simpl; now rewrite Hlen|].
    intros [|i] k Hi; simpl in *.
    + inversion Hi; subst. eauto.
    + now apply Hnth.
Qed.

Lemma lookup_all_total (base : table V) (alt : string) :
  forall keys : list string,
    (forall key, In key keys -> exists v, DensityVis.lookup base key alt = Py.Ok v) ->
    exists vals, DensityVis.lookup_all base alt keys = Py.Ok vals.
Proof.
  induction keys as [|key keys IH]; intros H; simpl; [eauto|].
  destruct (H key (or_introl eq_refl)) as [v Hv]. rewrite Hv.
  destruct IH as [vs Hvs]; [intros; apply H; now right|].
  rewrite Hvs. eauto.
Qed.

Lemma lookup_table_get (base : table V) (key alt : string) (v : V) :
  table_get base key alt = Some v -> DensityVis.lookup base key alt = Py.Ok v.
Proof.
  unfold table_get, DensityVis.lookup.
  destruct (Py.dict_get key base) as [[inner|]|]; try discriminate.
  destruct (Py.dict_get alt inner); [|discriminate].
  intros H. now inversion H.
Qed.

(** X16. From a table built from decimal years with pairwise distinct
    period labels, the series read at the label of an altitude of the array
    (not repeated later in the array, and within every row) is the column of
    that altitude: one value per decimal year, in order, each the density
    stored at that row and column. *)
Theorem series_is_column
    (d : RawData V) (ssp : Z) (t : table V) (k j : nat)
    (sspdata : list (list V)) (alt : Z) :
  main d ssp = Py.Ok t ->
  ssp_index ssp = Some k ->
  nth_error (dens d) k = Some sspdata ->
  NoDup (str_years d) ->
  nth_error (alt_rs d) j = Some alt ->
  (forall j' alt', j < j' -> nth_error (alt_rs d) j' = Some alt' -> alt' <> alt) ->
  (forall i row, i < List.length (year_rs d) -> nth_error sspdata i = Some row ->
                 j < List.length row) ->
  exists vals,
    DensityVis.series t (Py.str_of_Z alt) = Py.Ok vals /\
    List.length vals = List.length (year_rs d) /\
    forall i row, i < List.length (year_rs d) ->
                  nth_error sspdata i = Some row ->
                  nth_error vals i = nth_error row j.
Proof.
  intros Hmain Hk Hdens Hnd Halt Hlater Hwide.
  destruct (built_table_keys d ssp t Hmain) as [_ [_ [Hkeys _]]].
  specialize (Hkeys Hnd).
  pose proof Hmain as Hfill. unfold main in Hfill. rewrite Hk, Hdens in Hfill.
  assert (Hrows : List.length (year_rs d) <= List.length sspdata).
  { destruct (proj1 (proj1 (main_ok_iff d ssp)) (ex_intro _ t Hmain))
      as [k' [s' [Hk' [Hs' Hlen]]]].
    congruence. }
  assert (Hentry : forall i frac, nth_error (year_rs d) i = Some frac ->
            exists row v, nth_error sspdata i = Some row /\
                          nth_error row j = Some v /\
                          DensityVis.lookup t (period_label frac) (Py.str_of_Z alt)
                          = Py.Ok v).
  { intros i frac Hi.
    assert (Hilt : i < List.length (year_rs d)) by (apply nth_error_Some; congruence).
    destruct (nth_error sspdata i) as [row|] eqn:Hrow;
      [|apply nth_error_None in Hrow; lia].
    destruct (nth_error row j) as [v|] eqn:Hv;
      [|apply nth_error_None in Hv; specialize (Hwide i row Hilt Hrow); lia].
    exists row, v. repeat split; auto.
    apply lookup_table_get.
    apply (built_table_entry d sspdata _ t i j row frac alt v Hfill Hi Halt Hrow Hv);
      [|exact Hlater].
    intros i' frac' Hlt Hi' Hlab.
    unfold str_years in Hnd.
    assert (i' = i); [|lia].
    apply (proj1 (NoDup_nth_error _) Hnd).
    - rewrite length_map. apply nth_error_Some. congruence.
    - rewrite !nth_error_map, Hi, Hi'. simpl. now rewrite Hlab. }
  destruct (lookup_all_total t (Py.str_of_Z alt) (Py.dict_keys t)) as [vals Hvals].
  { intros key Hkey. rewrite Hkeys in Hkey. unfold str_years in Hkey.
    apply in_map_iff in Hkey. destruct Hkey as [frac [<- Hin]].
    apply In_nth_error in Hin. destruct Hin as [i Hi].
    destruct (Hentry i frac Hi) as [row [v [_ [_ Hl]]]]. eauto. }
  exists vals. split; [exact Hvals|].
  destruct (lookup_all_nth _ _ _ _ Hvals) as [Hlen Hnth].
  rewrite Hkeys in Hlen, Hnth. unfold str_years in Hlen, Hnth.
  rewrite length_map in Hlen. split; [exact Hlen|].
  intros i row Hi Hrow.
  destruct (nth_error (year_rs d) i) as [frac|] eqn:Hfrac;
    [|apply nth_error_None in Hfrac; lia].
  destruct (Hnth i (period_label frac)) as [v [Hv Hl]].
  { now rewrite nth_error_map, Hfrac. }
  destruct (Hentry i frac Hfrac) as [row' [v' [Hrow' [Hv' Hl']]]].
  rewrite Hl in Hl'. inversion Hl'; subst v'.
  rewrite Hv. congruence.
Qed.

(** X17. Reading a built table that has at least one period at an altitude
    label that is not a label of the altitude array raises a [KeyError]. *)
Theorem series_missing_altitude
    (d : RawData V) (ssp : Z) (t : table V) (alt : string) :
  main d ssp = Py.Ok t ->
  year_rs d <> [] ->
  ~ In alt (str_alts d) ->
  DensityVis.series t alt = Py.Raise "KeyError".
Proof.
  intros Hmain Hne Halt.
  destruct (built_table_keys d ssp t Hmain) as [_ [Hin [_ Hget]]].
  unfold DensityVis.series.
  destruct (Py.dict_keys t) as [|key keys] eqn:Ek.
  - exfalso. destruct (year_rs d) as [|frac fs] eqn:Ey; [now apply Hne|].
    apply (proj2 (Hin (period_label frac))).
    unfold str_years. rewrite Ey. now left.
  - simpl. assert (Hkey : In key (str_years d)).
    { apply (proj1 (Hin key)). now left. }
    destruct (Hget key Hkey) as [sspdata [row [_ [_ Hg]]]].
    unfold DensityVis.lookup. rewrite Hg.
    unfold Py.dict_of.
    rewrite (fold_set_get_other fst snd alt); [reflexivity|].
    intros p Hp Hk. apply zip_In_fst in Hp. congruence.
Qed.

End SeriesFacts.

Section SeriesWitnesses.
Import ReformatDensity.

Lemma series_is_column_witness :
  exists vals,
    DensityVis.series
      [("2020-01", Some [("550", 1%Z); ("600", 2%Z)]);
       ("2020-07", Some [("550", 3%Z); ("600", 4%Z)])]
      (Py.str_of_Z 600) = Py.Ok vals /\
    nth_error vals 1 = nth_error [3%Z; 4%Z] 1.
Proof.
  destruct (series_is_column
              (mkRawData (repeat [[1%Z; 2%Z]; [3%Z; 4%Z]] 10)
                 [550%Z; 600%Z] [2020%Q; 2020.5%Q])
              0
              [("2020-01", Some [("550", 1%Z); ("600", 2%Z)]);
               ("2020-07", Some [("550", 3%Z); ("600", 4%Z)])]
              9 1 [[1%Z; 2%Z]; [3%Z; 4%Z]] 600)
    as [vals [Hs [_ Hnth]]].
  - reflexivity.
  - reflexivity.
  - reflexivity.
  - repeat constructor; simpl; intuition discriminate.
  - reflexivity.
  - intros [|[|[|j']]] alt' Hlt Hnth; simpl in Hnth; try lia; discriminate.
  - intros [|[|i]] row Hi Hrow; simpl in Hi, Hrow; try lia;
      inversion Hrow; simpl; lia.
  - exists vals. split; [exact Hs|].
    apply (Hnth 1 [3%Z; 4%Z]); [simpl; lia | reflexivity].
Defined.

Lemma series_missing_altitude_witness :
  DensityVis.series
    [("2020-01", Some [("550", 1%Z)])] "600" = Py.Raise "KeyError".
Proof.
  apply (series_missing_altitude
           (mkRawData (repeat [[1%Z]] 10) [550%Z] [2020%Q]) 0).
  - reflexivity.
  - discriminate.
  - simpl. intuition discriminate.
Defined.

End SeriesWitnesses.

(** ** The scenario as a whole *)

Section ScenarioFacts.
Import SEP.
Local Open Scope Q_scope.

Lemma update_nth_error (f : Species -> Species) :
  forall (h : heap) (a a' : addr),
    nth_error (update a f h) a'
    = if Nat.eqb a a' then option_map f (nth_error h a') else nth_error h a'.
Proof.
  induction h as [|s h IH]; intros [|a] [|a']; simpl; auto.
  now destruct (Nat.eqb a a').
Qed.

Lemma update_length (f : Species -> Species) :
  forall (h : heap) (a : addr), List.length (update a f h) = List.length h.
Proof.
  induction h as [|s h IH]; intros [|a]; simpl; auto.
Qed.

(** The names whose species the derivation changes. *)
Lemma derive_variant_steps (h0 : heap) (base : Py.dict addr) (g : Globals) :
  derive_variant h0 base = Some g ->
  exists a1 a2 a3 a4 a5,
    Py.dict_get "commercial_constellation_sats" base = Some a1 /\
    Py.dict_get "commercial_other_sats" base = Some a2 /\
    Py.dict_get "gov_civil_sats" base = Some a3 /\
    Py.dict_get "military_sats" base = Some a4 /\
    Py.dict_get "rocket_bodies_commercial" base = Some a5 /\
    sep5_species g = base /\ sep5h_species g = base /\
    objects g
    = update a5 (with_pmd_success_rate 0.98)
        (update a5 (with_explosion_probability 0.01)
           (update a4 (with_pmd_success_rate 0.95)
              (update a3 (with_pmd_success_rate 0.95)
                 (update a2 (with_pmd_success_rate 0.99)
                    (update a1 (with_pmd_success_rate 0.99) h0))))).
Proof.
  unfold derive_variant, bind, setattr_in. intros H.
  destruct (Py.dict_get "commercial_constellation_sats" base) as [a1|];
    [|discriminate].
  destruct (Py.dict_get "commercial_other_sats" base) as [a2|]; [|discriminate].
  destruct (Py.dict_get "gov_civil_sats" base) as [a3|]; [|discriminate].
  destruct (Py.dict_get "military_sats" base) as [a4|]; [|discriminate].
  destruct (Py.dict_get "rocket_bodies_commercial" base) as [a5|];
    [|discriminate].
  inversion H. exists a1, a2, a3, a4, a5. repeat split; reflexivity.
Qed.

(** Two records that differ at most in the two fields the derivation
    assigns. *)
Lemma update_agree (f : Species -> Species) (h0 h : heap) (a : addr) :
  (forall s, with_pmd_success_rate 0 (with_explosion_probability 0 (f s))
             = with_pmd_success_rate 0 (with_explosion_probability 0 s)) ->
  (forall a' s, nth_error h0 a' = Some s ->
     exists s', nth_error h a' = Some s' /\
                with_pmd_success_rate 0 (with_explosion_probability 0 s')
                = with_pmd_success_rate 0 (with_explosion_probability 0 s)) ->
  forall a' s, nth_error h0 a' = Some s ->
    exists s', nth_error (update a f h) a' = Some s' /\
               with_pmd_success_rate 0 (with_explosion_probability 0 s')
               = with_pmd_success_rate 0 (with_explosion_probability 0 s).
Proof.
  intros Hf Hh a' s Hs. destruct (Hh a' s Hs) as [s' [Hs' Hag]].
  rewrite update_nth_error, Hs'. destruct (Nat.eqb a a'); simpl.
  - eexists. split; [reflexivity|]. now rewrite Hf.
  - eauto.
Qed.

(** X18. Whatever the heap and the base mapping, a derivation that succeeds
    leaves the number of objects and both mappings as they were, and changes
    nothing of any species but [pmd_success_rate] and
    [explosion_probability]: the name, the flags, the five property
    functions and the other parameters of every object are kept, and an
    object that none of the five overridden names refers to is kept
    whole. *)
Theorem derive_variant_frame (h0 : heap) (base : Py.dict addr) (g : Globals) :
  derive_variant h0 base = Some g ->
  List.length (objects g) = List.length h0 /\
  sep5_species g = base /\ sep5h_species g = base /\
  (forall a s, nth_error h0 a = Some s ->
     exists s',
       nth_error (objects g) a = Some s' /\
       name s' = name s /\ description s' = description s /\
       is_man_made s' = is_man_made s /\ is_active s' = is_active s /\
       is_trackable s' = is_trackable s /\ can_maneuver s' = can_maneuver s /\
       launch_rate_fn s' = launch_rate_fn s /\ lifetime_fn s' = lifetime_fn s /\
       mass_fn s' = mass_fn s /\ area_fn s' = area_fn s /\
       initial_number_fn s' = initial_number_fn s /\
       pmd_time s' = pmd_time s /\
       collision_avoidance s' = collision_avoidance s /\
       post_failure_activity_time s' = post_failure_activity_time s) /\
  (forall a,
     (forall key, In key ["commercial_constellation_sats"; "commercial_other_sats";
                          "gov_civil_sats"; "military_sats";
                          "rocket_bodies_commercial"] ->
                  Py.dict_get key base <> Some a) ->
     nth_error (objects g) a = nth_error h0 a).
Proof.
  intros H.
  destruct (derive_variant_steps h0 base g H)
    as [a1 [a2 [a3 [a4 [a5 [H1 [H2 [H3 [H4 [H5 [Hb [Hbh Hobj]]]]]]]]]]]].
  rewrite Hobj. split; [now rewrite !update_length|].
  split; [exact Hb|]. split; [exact Hbh|]. split.
  - intros a s Hs.
    assert (Hag : exists s',
              nth_error
                (update a5 (with_pmd_success_rate 0.98)
                   (update a5 (with_explosion_probability 0.01)
                      (update a4 (with_pmd_success_rate 0.95)
                         (update a3 (with_pmd_success_rate 0.95)
                            (update a2 (with_pmd_success_rate 0.99)
                               (update a1 (with_pmd_success_rate 0.99) h0))))))
                a = Some s' /\
              with_pmd_success_rate 0 (with_explosion_probability 0 s')
              = with_pmd_success_rate 0 (with_explosion_probability 0 s)).
    { revert a s Hs.
      repeat (apply update_agree; [intros s; reflexivity|]).
      intros a s Hs. eauto. }
    destruct Hag as [s' [Hs' Hag]]. exists s'. split; [exact Hs'|].
    repeat split.
    + apply (f_equal name) in Hag. exact Hag.
    + apply (f_equal description) in Hag. exact Hag.
    + apply (f_equal is_man_made) in Hag. exact Hag.
    + apply (f_equal is_active) in Hag. exact Hag.
    + apply (f_equal is_trackable) in Hag. exact Hag.
    + apply (f_equal can_maneuver) in Hag. exact Hag.
    + apply (f_equal launch_rate_fn) in Hag. exact Hag.
    + apply (f_equal lifetime_fn) in Hag. exact Hag.
    + apply (f_equal mass_fn) in Hag. exact Hag.
    + apply (f_equal area_fn) in Hag. exact Hag.
    + apply (f_equal initial_number_fn) in Hag. exact Hag.
    + apply (f_equal pmd_time) in Hag. exact Hag.
    + apply (f_equal collision_avoidance) in Hag. exact Hag.
    + apply (f_equal post_failure_activity_time) in Hag. exact Hag.
  - intros a Hfree.
    assert (Hne : a1 <> a /\ a2 <> a /\ a3 <> a /\ a4 <> a /\ a5 <> a).
    { repeat split; intros ->.
      - apply (Hfree "commercial_constellation_sats"); simpl; auto.
      - apply (Hfree "commercial_other_sats"); simpl; auto.
      - apply (Hfree "gov_civil_sats"); simpl; auto.
      - apply (Hfree "military_sats"); simpl; auto.
      - apply (Hfree "rocket_bodies_commercial"); simpl; auto 10. }
    destruct Hne as [N1 [N2 [N3 [N4 N5]]]].
    rewrite !update_nth_error.
    apply Nat.eqb_neq in N1, N2, N3, N4, N5.
    now rewrite N1, N2, N3, N4, N5.
Qed.

Lemma derive_variant_frame_witness :
  exists g, module_globals = Some g /\
            nth_error (objects g) 9 = nth_error species_objects 9.
Proof.
  destruct module_globals as [g|] eqn:E; [|discriminate E].
  exists g. split; [reflexivity|].
  apply (derive_variant_frame species_objects sep5_species_literal g E).
  intros key [<- | [<- | [<- | [<- | [<- | []]]]]]; discriminate.
Defined.

(** X19. The derivation fails, on the [KeyError] of a missing name, exactly
    when the base mapping lacks one of the five names it overrides;
    otherwise it succeeds, whatever the heap holds. *)
Theorem derive_variant_fails_iff (h0 : heap) (base : Py.dict addr) :
  derive_variant h0 base = None <->
  exists key, In key ["commercial_constellation_sats"; "commercial_other_sats";
                      "gov_civil_sats"; "military_sats";
                      "rocket_bodies_commercial"] /\
              Py.dict_get key base = None.
Proof.
  unfold derive_variant, bind, setattr_in. split.
  - intros H.
    destruct (Py.dict_get "commercial_constellation_sats" base) eqn:E1;
      [|eexists; split; [|exact E1]; simpl; auto].
    destruct (Py.dict_get "commercial_other_sats" base) eqn:E2;
      [|eexists; split; [|exact E2]; simpl; auto].
    destruct (Py.dict_get "gov_civil_sats" base) eqn:E3;
      [|eexists; split; [|exact E3]; simpl; auto].
    destruct (Py.dict_get "military_sats" base) eqn:E4;
      [|eexists; split; [|exact E4]; simpl; auto].
    destruct (Py.dict_get "rocket_bodies_commercial" base) eqn:E5;
      [|eexists; split; [|exact E5]; simpl; auto 10].
    discriminate.
  - intros [key [Hin Hget]].
    destruct Hin as [<- | [<- | [<- | [<- | [<- | []]]]]]; rewrite ?Hget;
      repeat match goal with
             | |- match match ?e with _ => _ end with _ => _ end = None =>
                 destruct e
             | |- match ?e with _ => _ end = None => destruct e
             end; try reflexivity; try discriminate.
Qed.

(** X20. When the five overridden names refer to five different objects of
    the heap, the derived mapping, and the base mapping with it, read the
    overriding values: 0.99, 0.99, 0.95 and 0.95 for the [pmd_success_rate]
    of the four satellite species, 0.01 and 0.98 for the
    [explosion_probability] and the [pmd_success_rate] of the commercial
    rocket bodies. *)
Theorem derive_variant_overrides
    (h0 : heap) (base : Py.dict addr) (g : Globals) (a1 a2 a3 a4 a5 : addr) :
  derive_variant h0 base = Some g ->
  Py.dict_get "commercial_constellation_sats" base = Some a1 ->
  Py.dict_get "commercial_other_sats" base = Some a2 ->
  Py.dict_get "gov_civil_sats" base = Some a3 ->
  Py.dict_get "military_sats" base = Some a4 ->
  Py.dict_get "rocket_bodies_commercial" base = Some a5 ->
  NoDup [a1; a2; a3; a4; a5] ->
  Forall (fun a => (a < List.length h0)%nat) [a1; a2; a3; a4; a5] ->
  forall d, d = sep5h_species g \/ d = sep5_species g ->
    option_map pmd_success_rate
      (getitem d "commercial_constellation_sats" (objects g)) = Some 0.99 /\
    option_map pmd_success_rate
      (getitem d "commercial_other_sats" (objects g)) = Some 0.99 /\
    option_map pmd_success_rate
      (getitem d "gov_civil_sats" (objects g)) = Some 0.95 /\
    option_map pmd_success_rate
      (getitem d "military_sats" (objects g)) = Some 0.95 /\
    option_map explosion_probability
      (getitem d "rocket_bodies_commercial" (objects g)) = Some (Some 0.01) /\
    option_map pmd_success_rate
      (getitem d "rocket_bodies_commercial" (objects g)) = Some 0.98.
Proof.
  intros H G1 G2 G3 G4 G5 Hnd Hlt d Hd.
  destruct (derive_variant_steps h0 base g H)
    as [b1 [b2 [b3 [b4 [b5 [H1 [H2 [H3 [H4 [H5 [Hb [Hbh Hobj]]]]]]]]]]]].
  assert (b1 = a1) by congruence. assert (b2 = a2) by congruence.
  assert (b3 = a3) by congruence. assert (b4 = a4) by congruence.
  assert (b5 = a5) by congruence. subst b1 b2 b3 b4 b5.
  assert (Hd' : d = base) by (destruct Hd; congruence). subst d.
  unfold getitem. rewrite G1, G2, G3, G4, G5, Hobj, !update_nth_error.
  assert (Hne : a1 <> a2 /\ a1 <> a3 /\ a1 <> a4 /\ a1 <> a5 /\ a2 <> a3 /\
                a2 <> a4 /\ a2 <> a5 /\ a3 <> a4 /\ a3 <> a5 /\ a4 <> a5).
  { inversion Hnd as [|? ? N1 Hnd1]; subst.
    inversion Hnd1 as [|? ? N2 Hnd2]; subst.
    inversion Hnd2 as [|? ? N3 Hnd3]; subst.
    inversion Hnd3 as [|? ? N4 Hnd4]; subst.
    simpl in *. intuition. }
  destruct Hne as [N12 [N13 [N14 [N15 [N23 [N24 [N25 [N34 [N35 N45]]]]]]]]].
  rewrite !Nat.eqb_refl.
  repeat match goal with
         | H : ?a <> ?b |- _ =>
             let E := fresh in
             let E' := fresh in
             assert (E : Nat.eqb a b = false) by (now apply Nat.eqb_neq);
             assert (E' : Nat.eqb b a = false)
               by (apply Nat.eqb_neq; congruence);
             rewrite ?E, ?E'; clear H
         end.
  repeat match goal with
         | H : Forall _ (_ :: _) |- _ => inversion H; subst; clear H
         end.
  repeat match goal with
         | H : (?a < List.length h0)%nat |- _ =>
             apply nth_error_Some in H;
             destruct (nth_error h0 a); [clear H | congruence]
         end.
  repeat split.
Qed.

Lemma derive_variant_overrides_witness :
  exists g, module_globals = Some g /\
            option_map pmd_success_rate
              (getitem (sep5h_species g) "military_sats" (objects g)) = Some 0.95.
Proof.
  destruct module_globals as [g|] eqn:E; [|discriminate E].
  exists g. split; [reflexivity|].
  apply (derive_variant_overrides species_objects sep5_species_literal g
           0%nat 1%nat 2%nat 3%nat 5%nat E);
    try reflexivity.
  - repeat constructor; simpl; intuition discriminate.
  - repeat constructor; simpl; lia.
  - now left.
Defined.

Lemma ltb_lt (x y : Q) : ltb x y = true <-> x < y.
Proof.
  unfold ltb. rewrite negb_true_iff. split.
  - intros H. apply Qnot_le_lt. intros Hle.
    apply Qle_bool_iff in Hle. congruence.
  - intros H. destruct (Qle_bool y x) eqn:E; [|reflexivity].
    apply Qle_bool_iff in E. exfalso. now apply (Qlt_not_le x y).
Qed.

Ltac solve_In := simpl; repeat (first [left; reflexivity | right]).

(** X21. In the module as it stands after import, the keys of the species
    mapping are pairwise distinct, each key is the [name] of the species it
    refers to, and every interaction of the high-sustainability list, which
    holds every interaction of the base list, names only species of the
    mapping: as [species_a], as [species_b] and as the keys of its
    products. *)
Theorem scenario_references_resolve :
  exists g : Globals,
    module_globals = Some g /\
    NoDup (Py.dict_keys (sep5_species g)) /\
    (forall key a, In (key, a) (sep5_species g) ->
       exists s, nth_error (objects g) a = Some s /\ name s = key) /\
    (forall r, In r interactions -> In r (sep5h_interactions g)) /\
    Forall (fun r =>
              In (species_a r) (Py.dict_keys (sep5_species g)) /\
              match species_b r with
              | Some b => In b (Py.dict_keys (sep5_species g))
              | None => True
              end /\
              Forall (fun k => In k (Py.dict_keys (sep5_species g)))
                (Py.dict_keys (products r)))
      (sep5h_interactions g).
Proof.
  eexists. split; [reflexivity|]. split; [|split; [|split]].
  - cbn. repeat (apply NoDup_cons; [simpl; intuition discriminate|]).
    apply NoDup_nil.
  - cbn. intros key a H.
    repeat (destruct H as [H | H];
            [inversion H; subst; eexists; split; reflexivity|]).
    destruct H.
  - cbn [sep5h_interactions]. intros r Hr. apply in_or_app. now left.
  - cbn [sep5h_interactions sep5_species]. unfold interactions. cbn [app].
    repeat (apply Forall_cons; [|]); try apply Forall_nil.
    all: cbn [species_a species_b products Py.dict_keys map fst].
    all: split; [solve_In | split; [first [exact I | solve_In]|]].
    all: repeat (apply Forall_cons; [solve_In|]); apply Forall_nil.
Qed.

(** X22. Before and after the derivation, every [pmd_success_rate] and every
    [explosion_probability] of the scenario lies between 0 and 1, and so
    does the probability of every interaction of the high-sustainability
    list, the base interactions among them, at every time and altitude. *)
Theorem scenario_probabilities_in_range :
  exists g : Globals,
    module_globals = Some g /\
    Forall (fun s =>
              (0 <= pmd_success_rate s /\ pmd_success_rate s <= 1) /\
              match explosion_probability s with
              | Some e => 0 <= e /\ e <= 1
              | None => True
              end)
      (species_objects ++ objects g) /\
    Forall (fun r => forall t alt : Q,
              0 <= probability_fn r t alt /\ probability_fn r t alt <= 1)
      (sep5h_interactions g).
Proof.
  eexists. split; [reflexivity|]. split.
  - cbn [app species_objects objects].
    repeat (apply Forall_cons; [|]); try apply Forall_nil.
    all: cbn; repeat split; try (apply Qle_bool_iff; reflexivity).
  - cbn [sep5h_interactions app interactions].
    repeat (apply Forall_cons; [|]); try apply Forall_nil.
    all: intros t alt; cbn [probability_fn].
    all: repeat match goal with
                | |- context [if ?b then _ else _] => destruct b
                end.
    all: split; apply Qle_bool_iff; reflexivity.
Qed.

(** X23. For every species, the launch rate is never negative, and the
    initial number is never negative and is zero at every altitude below 200
    and at every altitude of 1500 or more. *)
Theorem initial_numbers_bounded :
  Forall (fun s =>
            (forall t : Q, 0 <= launch_rate_fn s t) /\
            (forall alt : Q, 0 <= initial_number_fn s alt) /\
            (forall alt : Q, alt < 200 \/ 1500 <= alt ->
                             initial_number_fn s alt = 0))
    species_objects.
Proof.
  unfold species_objects.
  repeat (apply Forall_cons; [|]); try apply Forall_nil.
  all: split; [|split].
  all: intros x; cbn [launch_rate_fn initial_number_fn commercial_constellation
         commercial_other gov_civil military small_satellites
         rocket_bodies_commercial rocket_bodies_gov inactive_commercial
         inactive_government large_debris medium_debris small_debris].
  all: try (repeat match goal with
                   | |- context [if ?b then _ else _] => destruct b
                   end;
            apply Qle_bool_iff; reflexivity).
  all: intros Hout.
  all: repeat match goal with
              | |- context [if ?b then _ else _] => destruct b eqn:?
              end; try reflexivity.
  all: exfalso.
  all: repeat match goal with
              | H : andb _ _ = true |- _ =>
                  apply andb_true_iff in H; destruct H
              end.
  all: repeat match goal with
              | H : leb _ _ = true |- _ => apply Qle_bool_iff in H
              | H : ltb _ _ = true |- _ => apply ltb_lt in H
              end.
  all: destruct Hout; lra.
Qed.

(** X24. The high-sustainability list keeps every base rule beside the one
    it adds.  It holds two removal rules for the inactive commercial
    satellites: both are 0 before time 5, and from time 5 on one gives
    10/2000 and the other 15/2000.  Its explosion rule still gives 0.015
    above 300 km, while the [explosion_probability] read for the commercial
    rocket bodies is 0.01. *)
Theorem variant_interaction_rules :
  exists (g : Globals) (r1 r2 : Interaction),
    module_globals = Some g /\
    filter (fun r => String.eqb (interaction_type r) "removal")
      (sep5h_interactions g) = [r1; r2] /\
    species_a r1 = "inactive_commercial_sats" /\
    species_a r2 = "inactive_commercial_sats" /\
    (forall t alt : Q,
       (t < 5 -> probability_fn r1 t alt = 0 /\ probability_fn r2 t alt = 0) /\
       (5 <= t -> probability_fn r1 t alt = 10 / 2000 /\
                  probability_fn r2 t alt = 15 / 2000)) /\
    (forall r, In r (sep5h_interactions g) ->
       interaction_type r = "explosion" ->
       species_a r = "rocket_bodies_commercial" /\
       forall t alt : Q, 300 < alt -> probability_fn r t alt = 0.015) /\
    option_map explosion_probability
      (getitem (sep5h_species g) "rocket_bodies_commercial" (objects g))
    = Some (Some 0.01).
Proof.
  eexists _, _, _. split; [reflexivity|]. split; [reflexivity|].
  split; [reflexivity|]. split; [reflexivity|]. split; [|split; [|reflexivity]].
  - intros t alt. cbn [probability_fn]. split.
    + intros Hlt. destruct (t >=? 5) eqn:E; [|now split].
      apply geb_ge in E. exfalso. now apply (Qlt_not_le t 5).
    + intros Hle. apply geb_ge in Hle. rewrite Hle. now split.
  - cbn [sep5h_interactions app interactions]. intros r Hin Htype.
    repeat (destruct Hin as [Hin | Hin];
            [subst r; try discriminate Htype|]); [|destruct Hin].
    split; [reflexivity|]. intros t alt Halt. cbn [probability_fn].
    unfold gtb. apply ltb_lt in Halt. now rewrite Halt.
Qed.

End ScenarioFacts.
